(** * New Year countdown: a shallow embedding of [script.js]

    The page script computes the time left until the next 1 January,
    refreshes four text fields once per second and switches to a
    celebration view when the target instant is reached.

    The embedding has three layers:
    - [Number]: the JavaScript numbers the script computes with;
    - [ESDate]: the ECMAScript Date operations the script calls
      ([new Date(y, m, d, h, min, s)], [getFullYear], comparison and
      subtraction of dates), parameterised by the host time zone;
    - the script itself, as commands over a [Page] state that holds the
      two globals and the part of the document the script writes. *)

From Stdlib Require Import ZArith Lia Ascii String.
From stdpp Require Import gmap strings list.

Local Open Scope Z_scope.

(** ** JavaScript numbers *)

(** Every number the script handles is either an integer-valued double or
    [NaN]: time values are integers of magnitude at most 8.64e15, and
    [Math.floor (x / k)] and [x % k] keep integers integral.  A finite
    number is represented by the integer it denotes.

    Module [JS] reads the operations on integers, exactly.  Doubles follow
    that reading only on a range: a difference is exact while its magnitude
    is at most 2^53 (two valid dates can be further apart, and then it is
    rounded), the floor of a quotient by 1000, 60 or 24 is the integer
    quotient below 1000 * 2^44, and a numeral is the plain decimal one
    below 2^53.  Module [Double] further down gives the same operations
    with the rounding of IEEE 754 binary64, and lemmas [sub_doubles],
    [floorDiv_exact] and [calculateTimeUnits_doubles] state where the two
    readings agree. *)
Inductive Number : Type :=
| Num (z : Z)
| NaN.

Module JS.

(** [a - b] on integers; the double difference while its magnitude is at
    most 2^53 ([sub_doubles]). *)
Definition sub (a b : Number) : Number :=
  match a, b with
  | Num x, Num y => Num (x - y)
  | _, _ => NaN
  end.

(** [a + b] *)
Definition add (a b : Number) : Number :=
  match a, b with
  | Num x, Num y => Num (x + y)
  | _, _ => NaN
  end.

(** [Math.floor(a / k)] for a positive integer constant [k], on integers:
    the quotient rounded towards minus infinity.  On doubles this is the
    result for [0 <= a] with [a * 2 ^ log2 k < 2^53 * k]
    ([floorDiv_exact]). *)
Definition floor_div (a : Number) (k : Z) : Number :=
  match a with
  | Num x => Num (x / k)
  | NaN => NaN
  end.

(** [a % k]: the remainder takes the sign of the dividend. *)
Definition rem (a : Number) (k : Z) : Number :=
  match a with
  | Num x => Num (Z.rem x k)
  | NaN => NaN
  end.

(** [a <= b]; any comparison with [NaN] is false. *)
Definition le (a b : Number) : bool :=
  match a, b with
  | Num x, Num y => x <=? y
  | _, _ => false
  end.

(** [a >= b] *)
Definition ge (a b : Number) : bool :=
  match a, b with
  | Num x, Num y => y <=? x
  | _, _ => false
  end.

Definition digitChar (d : Z) : ascii :=
  ascii_of_nat (48 + Z.to_nat d).

(** The decimal digits of a non-negative integer, most significant
    first, pushed in front of [acc]. *)
Fixpoint decimalDigits (fuel : nat) (n : Z) (acc : string) : string :=
  match fuel with
  | O => acc
  | S fuel' =>
      let acc' := String (digitChar (n mod 10)) acc in
      if n <? 10 then acc' else decimalDigits fuel' (n / 10) acc'
  end.

Definition natToString (n : Z) : string :=
  decimalDigits (S (Z.to_nat (Z.log2 n))) n EmptyString.

(** [x.toString()] for integers of magnitude below 2^53, where the
    result is the plain decimal numeral (beyond, doubles print their
    shortest round-trip digits, and from 1e21 on in exponent notation).
    Every number the script displays is in that range. *)
Definition toString (x : Number) : string :=
  match x with
  | NaN => "NaN"%string
  | Num z =>
      if z <? 0 then String "-"%char (natToString (- z)) else natToString z
  end.

(** [fillLen] characters of [padString] repeated from its start;
    [rest] is what is left of the current repetition. *)
Fixpoint fill (fillLen : nat) (padString rest : string) : string :=
  match fillLen with
  | O => EmptyString
  | S n =>
      match rest with
      | String c rest' => String c (fill n padString rest')
      | EmptyString =>
          match padString with
          | String c rest' => String c (fill n padString rest')
          | EmptyString => EmptyString
          end
      end
  end.

(** [s.padStart(targetLength, padString)] *)
Definition padStart (targetLength : nat) (padString s : string) : string :=
  let len := String.length s in
  if (targetLength <=? len)%nat then s
  else String.append (fill (targetLength - len) padString padString) s.

(** Reading a decimal numeral back, used to state what [toString]
    prints. *)
Definition digitValue (c : ascii) : option Z :=
  let n := Z.of_nat (nat_of_ascii c) in
  if (48 <=? n) && (n <=? 57) then Some (n - 48) else None.

Fixpoint parseDigits (s : string) (acc : Z) : option Z :=
  match s with
  | EmptyString => Some acc
  | String c s' =>
      match digitValue c with
      | Some d => parseDigits s' (10 * acc + d)
      | None => None
      end
  end.

End JS.

(** ** Time units *)

Record TimeUnits : Type := mkTimeUnits {
  days : Number;
  hours : Number;
  minutes : Number;
  seconds : Number
}.

(** [calculateTimeUnits(milliseconds)], script.js lines 84-96. *)
Definition calculateTimeUnits (milliseconds : Number) : TimeUnits :=
  let seconds := JS.floor_div milliseconds 1000 in
  let minutes := JS.floor_div seconds 60 in
  let hours := JS.floor_div minutes 60 in
  let days := JS.floor_div hours 24 in
  {| days := days;
     hours := JS.rem hours 24;
     minutes := JS.rem minutes 60;
     seconds := JS.rem seconds 60 |}.

(** ** ECMAScript dates *)

(** The host's local time zone, as ECMA-262 sec. 21.4.1 has it:
    [LocalTZA t true] is the offset in milliseconds of local time from UTC
    at the UTC time value [t]; [LocalTZA l false] is the offset used to
    interpret the local time value [l]. *)
Class HostTimeZone : Type := {
  LocalTZA : Z -> bool -> Z
}.

Module ESDate.

Definition msPerDay : Z := 86400000.
Definition msPerHour : Z := 3600000.
Definition msPerMinute : Z := 60000.
Definition msPerSecond : Z := 1000.

(** Largest magnitude of a time value. *)
Definition maxTime : Z := 8640000000000000.

Definition Day (t : Z) : Z := t / msPerDay.
Definition TimeWithinDay (t : Z) : Z := t mod msPerDay.

Definition DaysInYear (y : Z) : Z :=
  if negb (y mod 4 =? 0) then 365
  else if negb (y mod 100 =? 0) then 366
  else if negb (y mod 400 =? 0) then 365
  else 366.

Definition DayFromYear (y : Z) : Z :=
  365 * (y - 1970) + (y - 1969) / 4 - (y - 1901) / 100 + (y - 1601) / 400.

Definition TimeFromYear (y : Z) : Z := msPerDay * DayFromYear y.

(** The year of day number [d]: an estimate from the mean year length,
    corrected by at most one year. *)
Definition YearFromDay (d : Z) : Z :=
  let y := 1970 + (d * 400) / 146097 in
  if d <? DayFromYear y then y - 1
  else if DayFromYear (y + 1) <=? d then y + 1
  else y.

(** The largest [y] with [TimeFromYear y <= t]. *)
Definition YearFromTime (t : Z) : Z := YearFromDay (Day t).

Definition InLeapYear (t : Z) : Z :=
  if DaysInYear (YearFromTime t) =? 366 then 1 else 0.

Definition DayWithinYear (t : Z) : Z :=
  Day t - DayFromYear (YearFromTime t).

Definition MonthFromTime (t : Z) : Z :=
  let d := DayWithinYear t in
  let leap := InLeapYear t in
  if d <? 31 then 0
  else if d <? 59 + leap then 1
  else if d <? 90 + leap then 2
  else if d <? 120 + leap then 3
  else if d <? 151 + leap then 4
  else if d <? 181 + leap then 5
  else if d <? 212 + leap then 6
  else if d <? 243 + leap then 7
  else if d <? 273 + leap then 8
  else if d <? 304 + leap then 9
  else if d <? 334 + leap then 10
  else 11.

Definition DateFromTime (t : Z) : Z :=
  let d := DayWithinYear t in
  let leap := InLeapYear t in
  match MonthFromTime t with
  | 0 => d + 1
  | 1 => d - 30
  | 2 => d - 58 - leap
  | 3 => d - 89 - leap
  | 4 => d - 119 - leap
  | 5 => d - 150 - leap
  | 6 => d - 180 - leap
  | 7 => d - 211 - leap
  | 8 => d - 242 - leap
  | 9 => d - 272 - leap
  | 10 => d - 303 - leap
  | _ => d - 333 - leap
  end.

Definition HourFromTime (t : Z) : Z := (t / msPerHour) mod 24.
Definition MinFromTime (t : Z) : Z := (t / msPerMinute) mod 60.
Definition SecFromTime (t : Z) : Z := (t / msPerSecond) mod 60.
Definition msFromTime (t : Z) : Z := t mod msPerSecond.

Definition MakeTime (hour min sec ms : Z) : Z :=
  hour * msPerHour + min * msPerMinute + sec * msPerSecond + ms.

(** Number of days of year [ym] before its month [mn] (0 to 11). *)
Definition daysBeforeMonth (ym mn : Z) : Z :=
  let leap := if DaysInYear ym =? 366 then 1 else 0 in
  match mn with
  | 0 => 0
  | 1 => 31
  | 2 => 59 + leap
  | 3 => 90 + leap
  | 4 => 120 + leap
  | 5 => 151 + leap
  | 6 => 181 + leap
  | 7 => 212 + leap
  | 8 => 243 + leap
  | 9 => 273 + leap
  | 10 => 304 + leap
  | _ => 334 + leap
  end.

(** The day number of the first day of month [month] of [year], plus
    [date - 1].  Where ECMA-262 lets an engine answer [NaN] for
    arguments out of its range, the day number computed here is beyond
    what [TimeClip] accepts, so the date built from it is invalid
    either way. *)
Definition MakeDay (year month date : Z) : Z :=
  let ym := year + month / 12 in
  let mn := month mod 12 in
  DayFromYear ym + daysBeforeMonth ym mn + date - 1.

Definition MakeDate (day time : Z) : Z := day * msPerDay + time.

Definition TimeClip (time : Z) : Number :=
  if maxTime <? Z.abs time then NaN else Num time.

Section Zone.
Context {tz : HostTimeZone}.

Definition LocalTime (t : Z) : Z := t + LocalTZA t true.
Definition UTC (t : Z) : Z := t - LocalTZA t false.

(** [new Date(year, month, date, hours, minutes, seconds)]: the time
    value of the date built from local-time fields.  A year from 0 to
    99 stands for 1900 + year. *)
Definition construct (year month date hours minutes seconds : Z) : Number :=
  let yr := if (0 <=? year) && (year <=? 99) then 1900 + year else year in
  let finalDate :=
    MakeDate (MakeDay yr month date) (MakeTime hours minutes seconds 0) in
  TimeClip (UTC finalDate).

(** [d.getFullYear()] of a valid date with time value [t]. *)
Definition getFullYear (t : Z) : Z := YearFromTime (LocalTime t).
End Zone.

(** A time value that a valid date can hold. *)
Definition ValidTime (t : Z) : Prop := - maxTime <= t <= maxTime.

End ESDate.

(** Zones with a constant offset from UTC, in milliseconds. *)
Definition fixedZone (offset : Z) : HostTimeZone :=
  {| LocalTZA := fun _ _ => offset |}.

Definition zoneUTC : HostTimeZone := fixedZone 0.

(** India Standard Time, UTC+05:30 all year. *)
Definition zoneIST : HostTimeZone := fixedZone 19800000.

(** A zone that sets its clocks back one hour at [at_utc]: from UTC+1 to
    UTC.  Local times of the repeated hour are read with the offset in
    force before the change, as ECMA-262 prescribes. *)
Definition zoneFallBack (at_utc : Z) : HostTimeZone :=
  {| LocalTZA := fun t isUTC =>
       if isUTC then (if t <? at_utc then 3600000 else 0)
       else (if t <? at_utc + 3600000 then 3600000 else 0) |}.

(** ** The page *)

(** Functions of the script whose invocation is recorded (ghost state,
    used to state which calls a handler makes and with which arguments). *)
Inductive Call : Type :=
| CallShowCelebration
| CallCalculateTimeUnits (milliseconds : Number)
| CallUpdateDisplay (timeUnits : TimeUnits)
| CallAddNumberChangeEffect
| CallAddCelebrationFireworks.

(** The two globals of the script and the parts of the document it writes.
    The elements the script looks up are taken to exist.
    - [targetDate]: the time value of the global [targetDate]; [NaN] for an
      invalid date, and for the global before [initializeCountdown] has
      run (coercing [undefined] to a number gives [NaN] as well);
    - [countdownInterval], [timers]: the global holding the interval id,
      and the intervals currently running;
    - [textContent]: text of the elements, by id;
    - [style]: inline style properties, by selector and property name;
    - [celebrationShown]: whether [#celebration] carries the class [show];
    - [fireworks]: how many fireworks the celebration has created;
    - [calls]: the script functions called so far, latest first. *)
Record Page : Type := mkPage {
  targetDate : Number;
  countdownInterval : option nat;
  timers : gset nat;
  textContent : gmap string string;
  style : gmap (string * string) string;
  celebrationShown : bool;
  fireworks : nat;
  calls : list Call
}.

(** The page as the script finds it when it is loaded. *)
Definition freshPage : Page :=
  {| targetDate := NaN; countdownInterval := None; timers := ∅;
     textContent := ∅; style := ∅; celebrationShown := false;
     fireworks := 0%nat; calls := [] |}.

(** Commands: functions of the script that read and write the page. *)
Definition Cmd (A : Type) : Type := Page -> A * Page.

Definition ret {A : Type} (a : A) : Cmd A := fun p => (a, p).

Definition bind {A B : Type} (c : Cmd A) (k : A -> Cmd B) : Cmd B :=
  fun p => let (a, p') := c p in k a p'.

Declare Scope cmd_scope.
Delimit Scope cmd_scope with cmd.
Notation "x <- c ;; k" := (bind c (fun x => k))
  (at level 100, c at next level, right associativity) : cmd_scope.
Notation "c ;; k" := (bind c (fun _ => k))
  (at level 100, right associativity) : cmd_scope.

Definition getTargetDate : Cmd Number := fun p => (targetDate p, p).

Definition setTargetDate (d : Number) : Cmd unit := fun p =>
  (tt, mkPage d (countdownInterval p) (timers p) (textContent p) (style p)
         (celebrationShown p) (fireworks p) (calls p)).

(** [document.getElementById(id).textContent = text] *)
Definition setTextContent (id text : string) : Cmd unit := fun p =>
  (tt, mkPage (targetDate p) (countdownInterval p) (timers p)
         (<[id := text]> (textContent p)) (style p)
         (celebrationShown p) (fireworks p) (calls p)).

(** [document.querySelector(selector).style.property = value] *)
Definition setStyle (selector property value : string) : Cmd unit := fun p =>
  (tt, mkPage (targetDate p) (countdownInterval p) (timers p) (textContent p)
         (<[(selector, property) := value]> (style p))
         (celebrationShown p) (fireworks p) (calls p)).

(** [clearInterval(countdownInterval)] *)
Definition clearCountdownInterval : Cmd unit := fun p =>
  (tt, mkPage (targetDate p) (countdownInterval p)
         (match countdownInterval p with
          | Some id => timers p ∖ {[ id ]}
          | None => timers p
          end)
         (textContent p) (style p) (celebrationShown p) (fireworks p) (calls p)).

(** [countdownInterval = setInterval(updateCountdown, 1000)] *)
Definition setCountdownInterval : Cmd unit := fun p =>
  let id := fresh (timers p) in
  (tt, mkPage (targetDate p) (Some id) ({[ id ]} ∪ timers p)
         (textContent p) (style p) (celebrationShown p) (fireworks p) (calls p)).

(** [celebrationElement.classList.add('show')] *)
Definition addClassShow : Cmd unit := fun p =>
  (tt, mkPage (targetDate p) (countdownInterval p) (timers p) (textContent p)
         (style p) true (fireworks p) (calls p)).

Definition appendFireworks (n : nat) : Cmd unit := fun p =>
  (tt, mkPage (targetDate p) (countdownInterval p) (timers p) (textContent p)
         (style p) (celebrationShown p) (n + fireworks p)%nat (calls p)).

Definition logCall (c : Call) : Cmd unit := fun p =>
  (tt, mkPage (targetDate p) (countdownInterval p) (timers p) (textContent p)
         (style p) (celebrationShown p) (fireworks p) (c :: calls p)).

(** ** The script *)

(** What one run of [updateCountdown] did: it showed the celebration and
    returned early, or it went on to display the time units. *)
Inductive TickResult : Type :=
| Elapsed
| Counting (timeUnits : TimeUnits).

Section Script.
Context {tz : HostTimeZone}.
Local Open Scope cmd_scope.

(** Lines 23 to 33 of [initializeCountdown]: the year of the target, for
    the clock reading [now]. *)
Definition selectTargetYear (now : Z) : Z :=
  let currentYear := ESDate.getFullYear now in
  let targetYear := currentYear + 1 in
  let newYearThisYear := ESDate.construct currentYear 0 1 0 0 0 in
  if JS.ge (Num now) newYearThisYear then currentYear + 1 else targetYear.

(** [initializeCountdown()], script.js lines 22-43; [now] is what
    [new Date()] reads from the clock. *)
Definition initializeCountdown (now : Z) : Cmd unit :=
  let targetYear := selectTargetYear now in
  setTargetDate (ESDate.construct targetYear 0 1 0 0 0) ;;
  setTextContent "target-year" (JS.toString (Num targetYear)) ;;
  setTextContent "current-year" (JS.toString (Num targetYear)).

(** The initialisation the specification describes: always the year
    after the current one. *)
Definition initializeNextYear (now : Z) : Cmd unit :=
  let targetYear := ESDate.getFullYear now + 1 in
  setTargetDate (ESDate.construct targetYear 0 1 0 0 0) ;;
  setTextContent "target-year" (JS.toString (Num targetYear)) ;;
  setTextContent "current-year" (JS.toString (Num targetYear)).
End Script.

(** [formatNumber] of [updateDisplay], line 104. *)
Definition formatNumber (num : Number) : string :=
  JS.padStart 2 "0" (JS.toString num).

Section Handlers.
Local Open Scope cmd_scope.

(** [updateDisplay(timeUnits)], lines 102-111. *)
Definition updateDisplay (timeUnits : TimeUnits) : Cmd unit :=
  logCall (CallUpdateDisplay timeUnits) ;;
  setTextContent "days" (formatNumber (days timeUnits)) ;;
  setTextContent "hours" (formatNumber (hours timeUnits)) ;;
  setTextContent "minutes" (formatNumber (minutes timeUnits)) ;;
  setTextContent "seconds" (formatNumber (seconds timeUnits)).

(** [addNumberChangeEffect()], lines 116-126; the timeout that scales the
    numbers back is left out. *)
Definition addNumberChangeEffect : Cmd unit :=
  logCall CallAddNumberChangeEffect ;;
  setStyle ".countdown-number" "transform" "scale(1.1)".

(** [addCelebrationFireworks()], lines 155-176: ten more fireworks. *)
Definition addCelebrationFireworks : Cmd unit :=
  logCall CallAddCelebrationFireworks ;;
  appendFireworks 10.

(** [showCelebration()], lines 131-150. *)
Definition showCelebration : Cmd unit :=
  logCall CallShowCelebration ;;
  clearCountdownInterval ;;
  setStyle ".countdown-container" "display" "none" ;;
  setStyle ".target-date" "display" "none" ;;
  addClassShow ;;
  addCelebrationFireworks ;;
  setStyle "#celebration" "animation" "celebrationBounce 1s ease-out".

(** [updateCountdown()], lines 59-77; [now] is what [new Date()] reads.
    The script's function returns nothing; the result here tells which
    of its two exits was taken. *)
Definition updateCountdown (now : Z) : Cmd TickResult :=
  target <- getTargetDate ;;
  let timeDifference := JS.sub target (Num now) in
  if JS.le timeDifference (Num 0) then
    showCelebration ;;
    ret Elapsed
  else
    logCall (CallCalculateTimeUnits timeDifference) ;;
    let timeUnits := calculateTimeUnits timeDifference in
    updateDisplay timeUnits ;;
    addNumberChangeEffect ;;
    ret (Counting timeUnits).

(** [startCountdown()], lines 48-54. *)
Definition startCountdown (now : Z) : Cmd TickResult :=
  r <- updateCountdown now ;;
  setCountdownInterval ;;
  ret r.

(** Successive runs of [updateCountdown], one per clock reading. *)
Fixpoint updateCountdowns (nows : list Z) : Cmd (list TickResult) :=
  match nows with
  | [] => ret []
  | now :: rest =>
      r <- updateCountdown now ;;
      rs <- updateCountdowns rest ;;
      ret (r :: rs)
  end.
End Handlers.

(** The outcome of one tick on page [p] at clock reading [now]. *)
Definition tick (p : Page) (now : Z) : TickResult := fst (updateCountdown now p).

(** The calls a command adds to the log of [p], oldest first. *)
Definition newCalls {A : Type} (c : Cmd A) (p : Page) : list Call :=
  rev (take (length (calls (snd (c p))) - length (calls p)) (calls (snd (c p)))).

(** ** The arithmetic on doubles *)

(** The same operations with the rounding of IEEE 754 binary64 (round to
    nearest, ties to even), for the integer-valued numbers of the script.
    The exponent range is not modelled: the numbers here stay far inside
    it. *)
Module Double.

(** 2^53: up to here every integer is a double. *)
Definition two53 : Z := 9007199254740992.

(** 1000 * 2^44: below it the division chain of [calculateTimeUnits] is
    exact on doubles.  Every difference of two valid dates is below it. *)
Definition exactBelow : Z := 17592186044416000.

(** [num / den] scaled by [2 ^ (- e)], as a fraction. *)
Definition scaled (num den e : Z) : Z * Z :=
  (num * 2 ^ Z.max 0 (- e), den * 2 ^ Z.max 0 e).

(** The double nearest to the positive fraction [num / den], as its
    significand [m] (2^52 <= m <= 2^53) and exponent [e]: [m * 2 ^ e]. *)
Definition roundPos (num den : Z) : Z * Z :=
  let e0 := Z.log2 num - Z.log2 den - 53 in
  let e := if two53 <=? fst (scaled num den e0) / snd (scaled num den e0)
           then e0 + 1 else e0 in
  let n := fst (scaled num den e) in
  let d := snd (scaled num den e) in
  let m := n / d in
  let r := n mod d in
  let m' := if 2 * r <? d then m
            else if d <? 2 * r then m + 1
            else if Z.even m then m else m + 1 in
  (m', e).

(** [Math.floor] of the double [sign * m * 2 ^ e]. *)
Definition floorOf (sign : Z) (me : Z * Z) : Z :=
  let (m, e) := me in
  if 0 <=? e then sign * m * 2 ^ e else (sign * m) / 2 ^ (- e).

(** [Math.floor(x / k)]: the quotient is rounded to a double first. *)
Definition floorDiv (x k : Z) : Z :=
  if x =? 0 then 0 else floorOf (Z.sgn x) (roundPos (Z.abs x) k).

(** The double nearest to the integer [z]. *)
Definition round53 (z : Z) : Z := floorDiv z 1.

(** [a - b]: the exact difference, rounded. *)
Definition sub (a b : Number) : Number :=
  match a, b with
  | Num x, Num y => Num (round53 (x - y))
  | _, _ => NaN
  end.

(** [Math.floor(a / k)] *)
Definition floor_div (a : Number) (k : Z) : Number :=
  match a with
  | Num x => Num (floorDiv x k)
  | NaN => NaN
  end.

(** [calculateTimeUnits(milliseconds)], lines 84-96, on doubles; the
    remainder [%] of doubles is exact. *)
Definition calculateTimeUnits (milliseconds : Number) : TimeUnits :=
  let seconds := floor_div milliseconds 1000 in
  let minutes := floor_div seconds 60 in
  let hours := floor_div minutes 60 in
  let days := floor_div hours 24 in
  {| days := days;
     hours := JS.rem hours 24;
     minutes := JS.rem minutes 60;
     seconds := JS.rem seconds 60 |}.

(** Lines 60 to 70 of [updateCountdown] on doubles: the difference, the
    guard and the decomposition. *)
Definition tick (target : Number) (now : Z) : TickResult :=
  let timeDifference := sub target (Num now) in
  if JS.le timeDifference (Num 0) then Elapsed
  else Counting (calculateTimeUnits timeDifference).

End Double.

(** ** Properties stated about the script *)

(** The time units of a whole number of milliseconds, by the chain of
    integer divisions: floor quotients and non-negative remainders. *)
Definition unitsOf (remaining : Z) : TimeUnits :=
  let totalSeconds := remaining / 1000 in
  let totalMinutes := totalSeconds / 60 in
  let totalHours := totalMinutes / 60 in
  {| days := Num (totalHours / 24);
     hours := Num (totalHours mod 24);
     minutes := Num (totalMinutes mod 60);
     seconds := Num (totalSeconds mod 60) |}.

Definition zeroUnits : TimeUnits :=
  {| days := Num 0; hours := Num 0; minutes := Num 0; seconds := Num 0 |}.

(** The text that [updateDisplay timeUnits] leaves in element [id]. *)
Definition displayed (timeUnits : TimeUnits) (p : Page) (id : string) : option string :=
  textContent (snd (updateDisplay timeUnits p)) !! id.

(** A text of exactly two decimal digits that reads as [n]. *)
Definition twoDigitsOf (n : Z) (text : string) : Prop :=
  String.length text = 2%nat /\ JS.parseDigits text 0 = Some n.

(** The display contract with an unpadded days field: hours, minutes and
    seconds on two digits, days as the plain numeral. *)
Definition displaysDaysUnpadded (D H M S : Z) (p : Page) : Prop :=
  let u := mkTimeUnits (Num D) (Num H) (Num M) (Num S) in
  displayed u p "days" = Some (JS.toString (Num D)) /\
  (exists th, displayed u p "hours" = Some th /\ twoDigitsOf H th) /\
  (exists tm, displayed u p "minutes" = Some tm /\ twoDigitsOf M tm) /\
  (exists ts, displayed u p "seconds" = Some ts /\ twoDigitsOf S ts).

(** The local time value [l] reads as 1 January of [year], 00:00:00.000. *)
Definition isNewYearMidnight (year l : Z) : Prop :=
  ESDate.YearFromTime l = year /\
  ESDate.MonthFromTime l = 0 /\ ESDate.DateFromTime l = 1 /\
  ESDate.HourFromTime l = 0 /\ ESDate.MinFromTime l = 0 /\
  ESDate.SecFromTime l = 0 /\ ESDate.msFromTime l = 0.

(** After [initializeCountdown] at clock reading [now], the target is a
    valid date, built from the local time 1 January 00:00:00 of the year
    after the local year of [now], and it lies strictly after [now]. *)
Definition targetsNextNewYear {tz : HostTimeZone} (now : Z) (p : Page) : Prop :=
  exists target l,
    targetDate (snd (initializeCountdown now p)) = Num target /\
    target = ESDate.UTC l /\
    isNewYearMidnight (ESDate.getFullYear now + 1) l /\
    now < target.

(** What a New Year target strictly ahead asks of the host zone:
    offsets are shorter than a day, and no instant whose local reading is
    before a 1 January midnight comes at or after the instant that this
    midnight denotes (no clock set back across a New Year). *)
Record ZoneKeepsNewYear (tz : HostTimeZone) : Prop := {
  tza_short : forall t isUTC, Z.abs (LocalTZA t isUTC) < ESDate.msPerDay;
  newyear_ahead : forall t y,
    ESDate.LocalTime t < ESDate.TimeFromYear y ->
    t < ESDate.UTC (ESDate.TimeFromYear y)
}.

(** Every call of [calculateTimeUnits] in a log has a strictly positive
    argument. *)
Definition calculatesPositiveOnly (log : list Call) : Prop :=
  forall ms, In (CallCalculateTimeUnits ms) log -> exists z, ms = Num z /\ 0 < z.

(** Sample instants (UTC): 2024-06-15T12:00:00 and 2025-01-01T00:00:00,
    and the page initialised at the former in a UTC host. *)
Definition mid2024 : Z := 1718452800000.
Definition newYear2025 : Z := 1735689600000.
Definition page2024 : Page := snd (@initializeCountdown zoneUTC mid2024 freshPage).

(** 0050-01-01T00:00:00 UTC, an instant in a two-digit year. *)
Definition year50 : Z := -60589296000000.

(** A host that sets its clocks back from 00:30 on 1 January 2025 (UTC+1)
    to 23:30 on 31 December 2024 (UTC), and an instant one minute later. *)
Definition fallBackInstant : Z := newYear2025 - 1800000.
Definition zoneNewYearFallBack : HostTimeZone := zoneFallBack fallBackInstant.
Definition afterFallBack : Z := fallBackInstant + 60000.

(** ** Event listeners and the rest of the script *)

(** [s.toLowerCase()] on the letters A to Z; other characters are kept. *)
Definition lowerChar (c : ascii) : ascii :=
  let n := nat_of_ascii c in
  if (65 <=? n)%nat && (n <=? 90)%nat then ascii_of_nat (n + 32) else c.

Fixpoint toLowerCase (s : string) : string :=
  match s with
  | EmptyString => EmptyString
  | String c s' => String (lowerChar c) (toLowerCase s')
  end.

(** The palette of [getRandomColor], line 183. *)
Definition colors : list string :=
  ["#ff6b6b"; "#feca57"; "#48dbfb"; "#ff9ff3";
   "#54a0ff"; "#5f27cd"; "#00d2d3"; "#ff9f43"]%string.

(** A result of [Math.random()]: the double [numerator / 2 ^ exponent].
    Every double is such a fraction, and multiplying it by the palette
    length 8, a power of two, is exact. *)
Record Random : Type := mkRandom {
  numerator : Z;
  exponent : Z
}.

(** [0 <= r < 1], what [Math.random()] promises. *)
Definition inUnitInterval (r : Random) : Prop :=
  0 <= exponent r /\ 0 <= numerator r < 2 ^ exponent r.

(** [Math.floor(Math.random() * colors.length)], line 184. *)
Definition randomIndex (r : Random) : Z :=
  (numerator r * Z.of_nat (length colors)) / 2 ^ exponent r.

(** [getRandomColor()], lines 182-185; [None] stands for [undefined], what
    indexing an array out of its bounds gives. *)
Definition getRandomColor (r : Random) : option string :=
  let i := randomIndex r in
  if i <? 0 then None else colors !! Z.to_nat i.

(** The whole seconds that four time units stand for, when all four are
    finite numbers. *)
Definition secondsShown (u : TimeUnits) : option Z :=
  match days u, hours u, minutes u, seconds u with
  | Num d, Num h, Num m, Num s => Some (d * 86400 + h * 3600 + m * 60 + s)
  | _, _, _, _ => None
  end.

(** The number that the text of element [id] reads as. *)
Definition fieldValue (p : Page) (id : string) : option Z :=
  match textContent p !! id with
  | Some text => JS.parseDigits text 0
  | None => None
  end.

(** How many results of a sequence of ticks are [Elapsed]. *)
Fixpoint countElapsed (rs : list TickResult) : nat :=
  match rs with
  | [] => 0%nat
  | Elapsed :: rs' => S (countElapsed rs')
  | Counting _ :: rs' => countElapsed rs'
  end.

Section Listeners.
Context {tz : HostTimeZone}.
Local Open Scope cmd_scope.

(** The [DOMContentLoaded] listener, lines 14-17; [now1] and [now2] are
    the two successive clock readings of [initializeCountdown] and
    [startCountdown]. *)
Definition onDOMContentLoaded (now1 now2 : Z) : Cmd unit :=
  initializeCountdown now1 ;;
  startCountdown now2 ;;
  ret tt.

(** One firing of the interval [id]: the callback [updateCountdown] runs
    only while the interval has not been cleared. *)
Definition onInterval (id : nat) (now : Z) : Cmd unit := fun p =>
  if decide (id ∈ timers p) then (tt, snd (updateCountdown now p)) else (tt, p).

(** The [resize] listener, lines 190-200. *)
Definition onResize (innerWidth : Z) : Cmd unit :=
  let isMobile := innerWidth <=? 480 in
  if isMobile then setStyle ".countdown-container" "flexDirection" "column"
  else setStyle ".countdown-container" "flexDirection" "row".

(** The [visibilitychange] listener, lines 205-214. *)
Definition onVisibilityChange (hidden : bool) (now : Z) : Cmd unit :=
  if hidden then ret tt
  else updateCountdown now ;; ret tt.

(** [location.reload()]: the document is loaded anew; the globals of the
    script, its intervals and everything it wrote are gone. *)
Definition reload : Cmd unit := fun _ => (tt, freshPage).

(** The [keydown] listener, lines 219-230. *)
Definition onKeyDown (key : string) (ctrlKey : bool) : Cmd unit :=
  (if String.eqb (toLowerCase key) "r" then reload else ret tt) ;;
  (if String.eqb key " " && ctrlKey then showCelebration else ret tt).

(** The timeout set by the [error] listener, lines 239-246: the countdown
    is initialised and started again. *)
Definition onErrorTimeout (now1 now2 : Z) : Cmd unit :=
  initializeCountdown now1 ;;
  startCountdown now2 ;;
  ret tt.

(** What can happen to the page once the script is loaded. *)
Inductive Event : Type :=
| DOMContentLoaded (now1 now2 : Z)
| IntervalFires (id : nat) (now : Z)
| Resized (innerWidth : Z)
| VisibilityChanged (hidden : bool) (now : Z)
| KeyPressed (key : string) (ctrlKey : bool)
| ErrorTimeout (now1 now2 : Z).

Definition handle (e : Event) : Cmd unit :=
  match e with
  | DOMContentLoaded now1 now2 => onDOMContentLoaded now1 now2
  | IntervalFires id now => onInterval id now
  | Resized innerWidth => onResize innerWidth
  | VisibilityChanged hidden now => onVisibilityChange hidden now
  | KeyPressed key ctrlKey => onKeyDown key ctrlKey
  | ErrorTimeout now1 now2 => onErrorTimeout now1 now2
  end.

(** The page after a sequence of events. *)
Fixpoint run (events : list Event) (p : Page) : Page :=
  match events with
  | [] => p
  | e :: rest => run rest (snd (handle e p))
  end.
End Listeners.

(** The event reloads the document. *)
Definition reloads (e : Event) : bool :=
  match e with
  | KeyPressed key _ => String.eqb (toLowerCase key) "r"
  | _ => false
  end.

(** The event initialises and starts the countdown. *)
Definition restarts (e : Event) : bool :=
  match e with
  | DOMContentLoaded _ _ | ErrorTimeout _ _ => true
  | _ => false
  end.

(** The celebration view: the celebration is shown and the countdown and
    the target line are hidden. *)
Definition celebrationView (p : Page) : Prop :=
  celebrationShown p = true /\
  style p !! (".countdown-container", "display")%string = Some "none"%string /\
  style p !! (".target-date", "display")%string = Some "none"%string.

(** The clock readings of a one-second ticking that starts at [now]. *)
Fixpoint everySecond (n : nat) (now : Z) : list Z :=
  match n with
  | O => []
  | S n' => now :: everySecond n' (now + 1000)
  end.

(** The whole seconds a tick result stands for; none when elapsed. *)
Definition resultSeconds (r : TickResult) : option Z :=
  match r with
  | Counting u => secondsShown u
  | Elapsed => None
  end.

(** [n] numbers going down by one from [s]. *)
Fixpoint descending (n : nat) (s : Z) : list Z :=
  match n with
  | O => []
  | S n' => s :: descending n' (s - 1)
  end.

(** A zone that changes its offset from [before] to [after] at the UTC
    time value [at_utc].  When the clocks are set back ([after < before]),
    the repeated local times are read with the offset [before]. *)
Definition zoneSetBack (at_utc before after : Z) : HostTimeZone :=
  {| LocalTZA := fun t isUTC =>
       if isUTC then (if t <? at_utc then before else after)
       else (if t <? at_utc + before then before else after) |}.

(** America/Phoenix around New Year 1944: at 00:01 on 1 January, Mountain
    War Time (UTC-6), the clocks went back to 23:01 on 31 December,
    Mountain Standard Time (UTC-7). *)
Definition zonePhoenix1944 : HostTimeZone :=
  zoneSetBack (ESDate.TimeFromYear 1944 + 6 * ESDate.msPerHour + ESDate.msPerMinute)
    (- 6 * ESDate.msPerHour) (- 7 * ESDate.msPerHour).

(** 23:30 on 31 December 1943 in Phoenix, the second time that evening
    (1944-01-01T06:30:00Z). *)
Definition phoenixSecondEvening : Z :=
  ESDate.TimeFromYear 1944 + 6 * ESDate.msPerHour + 30 * ESDate.msPerMinute.

(** Sample pages and events: the page of 2024 with the celebration forced
    by Ctrl+Space, the page as loaded in mid 2024, and events that follow. *)
Definition celebratedPage : Page :=
  snd (@handle zoneUTC (KeyPressed " " true) page2024).
Definition loadedPage : Page :=
  snd (@handle zoneUTC (DOMContentLoaded mid2024 (mid2024 + 3)) freshPage).
Definition laterEvents : list Event :=
  [VisibilityChanged false mid2024; ErrorTimeout mid2024 (mid2024 + 1);
   IntervalFires 0 (mid2024 + 1000); Resized 400].

(** ** Arithmetic of the decomposition *)

(** Goals about floor quotients and remainders by constants. *)
Ltac floor_arith := Z.div_mod_to_equations; lia.

Lemma calculateTimeUnits_Num (d : Z) :
  calculateTimeUnits (Num d) =
  {| days := Num (d / 1000 / 60 / 60 / 24);
     hours := Num (Z.rem (d / 1000 / 60 / 60) 24);
     minutes := Num (Z.rem (d / 1000 / 60) 60);
     seconds := Num (Z.rem (d / 1000) 60) |}.
Proof. reflexivity. Qed.

Lemma calculateTimeUnits_nonneg (d : Z) :
  0 <= d -> calculateTimeUnits (Num d) = unitsOf d.
Proof.
  intros Hd. rewrite calculateTimeUnits_Num. unfold unitsOf.
  assert (0 <= d / 1000) as Hs by (apply Z.div_pos; lia).
  assert (0 <= d / 1000 / 60) as Hm by (apply Z.div_pos; lia).
  assert (0 <= d / 1000 / 60 / 60) as Hh by (apply Z.div_pos; lia).
  rewrite !Z.rem_mod_nonneg by lia. reflexivity.
Qed.

Lemma calculateTimeUnits_NaN :
  calculateTimeUnits NaN = mkTimeUnits NaN NaN NaN NaN.
Proof. reflexivity. Qed.

Lemma unitsOf_recompose (d : Z) :
  d / 1000 / 60 / 60 / 24 * 86400000
  + (d / 1000 / 60 / 60) mod 24 * 3600000
  + (d / 1000 / 60) mod 60 * 60000
  + (d / 1000) mod 60 * 1000
  + d mod 1000 = d.
Proof.
  pose proof (Z.div_mod d 1000 ltac:(lia)) as H1.
  pose proof (Z.div_mod (d / 1000) 60 ltac:(lia)) as H2.
  pose proof (Z.div_mod (d / 1000 / 60) 60 ltac:(lia)) as H3.
  pose proof (Z.div_mod (d / 1000 / 60 / 60) 24 ltac:(lia)) as H4.
  lia.
Qed.

(** ** One run of [updateCountdown] *)

Lemma updateCountdown_elapsed (p : Page) (now : Z) :
  JS.le (JS.sub (targetDate p) (Num now)) (Num 0) = true ->
  updateCountdown now p = (Elapsed, snd (showCelebration p)).
Proof.
  intros H. unfold updateCountdown, bind, getTargetDate, ret.
  rewrite H. destruct (showCelebration p); reflexivity.
Qed.

Lemma updateCountdown_counting (p : Page) (now : Z) :
  JS.le (JS.sub (targetDate p) (Num now)) (Num 0) = false ->
  let diff := JS.sub (targetDate p) (Num now) in
  updateCountdown now p =
  (Counting (calculateTimeUnits diff),
   snd (addNumberChangeEffect
          (snd (updateDisplay (calculateTimeUnits diff)
                  (snd (logCall (CallCalculateTimeUnits diff) p)))))).
Proof.
  intros H diff. subst diff.
  unfold updateCountdown, bind, getTargetDate, ret.
  rewrite H. reflexivity.
Qed.

Lemma tick_unfold (p : Page) (now : Z) :
  tick p now =
  if JS.le (JS.sub (targetDate p) (Num now)) (Num 0) then Elapsed
  else Counting (calculateTimeUnits (JS.sub (targetDate p) (Num now))).
Proof.
  unfold tick.
  destruct (JS.le (JS.sub (targetDate p) (Num now)) (Num 0)) eqn:E.
  - rewrite updateCountdown_elapsed by assumption. reflexivity.
  - rewrite updateCountdown_counting by assumption. reflexivity.
Qed.

Lemma tick_valid (p : Page) (target now : Z) :
  targetDate p = Num target ->
  tick p now =
  if target - now <=? 0 then Elapsed
  else Counting (calculateTimeUnits (Num (target - now))).
Proof. intros H. rewrite tick_unfold, H. reflexivity. Qed.

(** ** Where the integer reading is the arithmetic of doubles *)

Lemma round_up_stays_below (x k n lb : Z) :
  0 <= x -> 0 < k -> 0 <= n ->
  0 <= lb -> k < 2 ^ (lb + 1) ->
  x * 2 ^ lb < Double.two53 * k ->
  2 ^ 52 <= x * 2 ^ n / k ->
  k <= 2 * ((x * 2 ^ n) mod k) ->
  (x * 2 ^ n / k + 1) / 2 ^ n = x / k.
Proof.
  intros Hx Hk Hn Hlb0 Hlb Hsmall Hnorm Hhalf.
  assert (0 < 2 ^ n) as HP by (apply Z.pow_pos_nonneg; lia).
  set (P := 2 ^ n) in *. set (A := x * P) in *.
  set (m := A / k) in *. set (r := A mod k) in *.
  set (q := x / k).
  assert (A = k * m + r) as HA by (apply Z.div_mod; lia).
  assert (0 <= r < k) as Hr by (apply Z.mod_pos_bound; lia).
  assert (x = k * q + x mod k) as Hxq by (apply Z.div_mod; lia).
  assert (0 <= x mod k < k) as Hr' by (apply Z.mod_pos_bound; lia).
  assert (m / P = q) as Hmq.
  { subst m A q. rewrite Z.div_div by lia.
    apply Z.div_mul_cancel_r; lia. }
  assert (P * q <= m < P * (q + 1)) as Hm.
  { rewrite <- Hmq. split.
    - apply Z.mul_div_le. lia.
    - pose proof (Z.mul_succ_div_gt m P HP). lia. }
  symmetry. apply (Z.div_unique_pos (m + 1) P q (m + 1 - P * q)); [|lia].
  split; [lia|].
  destruct (Z_lt_le_dec (m + 1) (P * (q + 1))) as [Hok|Hbad]; [lia|].
  exfalso.
  assert (m + 1 = P * (q + 1)) as Heq by lia.
  assert (A + P <= k * (m + 1)) as H1.
  { rewrite Heq. subst A. nia. }
  assert (2 * P <= k) as H2 by lia.
  assert (2 ^ (n + 1) = 2 * P) as HPn
    by (rewrite Z.pow_add_r by lia; unfold P; lia).
  assert (n + 1 <= lb) as H3.
  { destruct (Z_lt_le_dec lb (n + 1)) as [Hlt|Hge]; [|exact Hge].
    exfalso.
    assert (2 ^ (lb + 1) <= 2 ^ (n + 1)) by (apply Z.pow_le_mono_r; lia).
    lia. }
  assert (2 * P <= 2 ^ lb) as H4.
  { rewrite <- HPn. apply Z.pow_le_mono_r; lia. }
  assert (Double.two53 * k <= x * (2 * P)) as H5.
  { unfold Double.two53. change (2 ^ 52) with 4503599627370496 in Hnorm. nia. }
  nia.
Qed.

Lemma floor_of_rounded (x k n lb : Z) :
  0 <= x -> 0 < k -> 0 <= n ->
  0 <= lb -> k < 2 ^ (lb + 1) ->
  x * 2 ^ lb < Double.two53 * k ->
  2 ^ 52 <= x * 2 ^ n / k ->
  let m := x * 2 ^ n / k in
  let r := (x * 2 ^ n) mod k in
  (if 2 * r <? k then m
   else if k <? 2 * r then m + 1
   else if Z.even m then m else m + 1) / 2 ^ n = x / k.
Proof.
  intros Hx Hk Hn Hlb0 Hlb Hsmall Hnorm m r.
  assert (0 < 2 ^ n) as HP by (apply Z.pow_pos_nonneg; lia).
  assert (m / 2 ^ n = x / k) as Hdown.
  { subst m. rewrite Z.div_div by lia. apply Z.div_mul_cancel_r; lia. }
  assert (k <= 2 * r -> (m + 1) / 2 ^ n = x / k) as Hup.
  { intros Hhalf. apply (round_up_stays_below x k n lb); assumption. }
  destruct (Z.ltb_spec (2 * r) k); [exact Hdown|].
  destruct (Z.ltb_spec k (2 * r)); [apply Hup; lia|].
  destruct (Z.even m); [exact Hdown|apply Hup; lia].
Qed.

Lemma scaled_negative (num den e : Z) :
  e < 0 -> Double.scaled num den e = (num * 2 ^ (- e), den).
Proof.
  intros He. unfold Double.scaled.
  rewrite (Z.max_r 0 (- e)) by lia. rewrite (Z.max_l 0 e) by lia.
  rewrite Z.pow_0_r, Z.mul_1_r. reflexivity.
Qed.

(** Below the bound, the rounded double quotient has the floor of the
    exact quotient. *)
Lemma floorDiv_exact (x k : Z) :
  0 <= x -> 4 <= k ->
  x * 2 ^ Z.log2 k < Double.two53 * k ->
  Double.floorDiv x k = x / k.
Proof.
  intros Hx Hk Hsmall. unfold Double.floorDiv.
  destruct (Z.eqb_spec x 0) as [->|Hnz]; [reflexivity|].
  rewrite Z.sgn_pos, Z.abs_eq by lia.
  pose proof (Z.log2_spec x ltac:(lia)) as [Hla1 Hla2].
  pose proof (Z.log2_spec k ltac:(lia)) as [Hlb1 Hlb2].
  pose proof (Z.log2_nonneg x) as Hla0.
  assert (2 <= Z.log2 k) as Hlb0 by (apply (Z.log2_le_pow2 k 2); lia).
  set (la := Z.log2 x) in *. set (lb := Z.log2 k) in *.
  rewrite <- Z.add_1_r in Hla2, Hlb2.
  assert (0 < 2 ^ lb) as Hpl by (apply Z.pow_pos_nonneg; lia).
  assert (la < 54) as Hla.
  { assert (la + lb < 54 + lb) as H; [|lia].
    apply (Z.pow_lt_mono_r_iff 2 (la + lb) (54 + lb)); [lia|lia|].
    rewrite !Z.pow_add_r by lia. change (2 ^ 54) with (2 * Double.two53).
    rewrite Z.pow_add_r, Z.pow_1_r in Hlb2 by lia. nia. }
  unfold Double.roundPos. cbv zeta. fold la lb.
  set (e0 := la - lb - 53).
  assert (e0 <= -2) as He0 by (subst e0; lia).
  rewrite (scaled_negative x k e0) by lia. cbn [fst snd].
  assert (2 ^ (- e0) = 2 * 2 ^ (- (e0 + 1))) as Hpow.
  { replace (- e0) with (1 + - (e0 + 1)) by lia.
    rewrite Z.pow_add_r by lia. reflexivity. }
  assert (0 < 2 ^ (- (e0 + 1))) as Hp1 by (apply Z.pow_pos_nonneg; lia).
  destruct (Z.leb_spec Double.two53 (x * 2 ^ (- e0) / k)) as [Hbig|Hfit].
  - rewrite (scaled_negative x k (e0 + 1)) by lia. cbn [fst snd].
    unfold Double.floorOf.
    destruct (Z.leb_spec 0 (e0 + 1)); [lia|]. rewrite !Z.mul_1_l.
    apply (floor_of_rounded x k (- (e0 + 1)) lb); try lia.
    apply Z.div_le_lower_bound; [lia|].
    assert (Double.two53 * k <= x * 2 ^ (- e0)) as H1.
    { pose proof (Z.mul_div_le (x * 2 ^ (- e0)) k ltac:(lia)). nia. }
    rewrite Hpow in H1. unfold Double.two53 in H1.
    change (2 ^ 52) with 4503599627370496. lia.
  - rewrite (scaled_negative x k e0) by lia. cbn [fst snd].
    unfold Double.floorOf.
    destruct (Z.leb_spec 0 e0); [lia|]. rewrite !Z.mul_1_l.
    apply (floor_of_rounded x k (- e0) lb); try lia.
    apply Z.div_le_lower_bound; [lia|].
    assert (2 ^ (53 + lb) <= x * 2 ^ (- e0)) as H1.
    { replace (53 + lb) with (la + - e0) by (subst e0; lia).
      rewrite Z.pow_add_r by lia.
      apply Z.mul_le_mono_nonneg_r; [apply Z.pow_nonneg; lia|lia]. }
    rewrite Z.pow_add_r in H1 by lia.
    rewrite Z.pow_add_r, Z.pow_1_r in Hlb2 by lia.
    change (2 ^ 53) with (2 * 4503599627370496) in H1.
    change (2 ^ 52) with 4503599627370496. nia.
Qed.

Lemma scaled_zero (num den : Z) : Double.scaled num den 0 = (num, den).
Proof. unfold Double.scaled. cbn. rewrite !Z.mul_1_r. reflexivity. Qed.

(** An integer of magnitude up to 2^53 is a double. *)
Lemma round53_exact (z : Z) :
  Z.abs z <= Double.two53 -> Double.round53 z = z.
Proof.
  intros Hz. unfold Double.round53, Double.floorDiv.
  destruct (Z.eqb_spec z 0) as [->|Hnz]; [reflexivity|].
  set (a := Z.abs z). set (s := Z.sgn z).
  assert (0 < a) as Ha by (subst a; lia).
  assert (z = s * a) as Hsa.
  { subst s a. destruct (Z.abs_spec z) as [[? ->]|[? ->]];
      [rewrite Z.sgn_pos by lia|rewrite Z.sgn_neg by lia]; lia. }
  fold a in Hz. rewrite Hsa. clearbody s a. clear z Hnz Hsa.
  destruct (Z.eq_dec a Double.two53) as [->|Hne].
  { replace (Double.roundPos Double.two53 1) with (4503599627370496, 1)
      by (vm_compute; reflexivity).
    unfold Double.floorOf, Double.two53. change (0 <=? 1) with true.
    cbv iota. change (2 ^ 1) with 2. lia. }
  pose proof (Z.log2_spec a Ha) as [Hla1 Hla2].
  pose proof (Z.log2_nonneg a) as Hla0.
  set (la := Z.log2 a) in *. rewrite <- Z.add_1_r in Hla2.
  assert (la < 53) as Hla.
  { apply (Z.pow_lt_mono_r_iff 2 la 53); [lia|lia|].
    change (2 ^ 53) with Double.two53. lia. }
  unfold Double.roundPos. cbv zeta. fold la. change (Z.log2 1) with 0.
  set (e0 := la - 0 - 53).
  assert (e0 < 0) as He0 by (subst e0; lia).
  rewrite (scaled_negative a 1 e0) by lia. cbn [fst snd]. rewrite Z.div_1_r.
  assert (Double.two53 <= a * 2 ^ (- e0)) as Hbig.
  { change Double.two53 with (2 ^ 53).
    replace 53 with (la + - e0) by (subst e0; lia).
    rewrite Z.pow_add_r by lia.
    apply Z.mul_le_mono_nonneg_r; [apply Z.pow_nonneg; lia|lia]. }
  destruct (Z.leb_spec Double.two53 (a * 2 ^ (- e0))); [|lia].
  destruct (Z.eq_dec (e0 + 1) 0) as [Hz0|Hnz0].
  - rewrite Hz0, scaled_zero. cbn [fst snd].
    rewrite Z.div_1_r, Z.mod_1_r. change (2 * 0 <? 1) with true. cbv iota.
    unfold Double.floorOf. change (0 <=? 0) with true. cbv iota.
    change (2 ^ 0) with 1. lia.
  - rewrite (scaled_negative a 1 (e0 + 1)) by lia. cbn [fst snd].
    rewrite Z.div_1_r, Z.mod_1_r. change (2 * 0 <? 1) with true. cbv iota.
    unfold Double.floorOf. destruct (Z.leb_spec 0 (e0 + 1)); [lia|].
    rewrite Z.mul_assoc. apply Z.div_mul.
    apply Z.pow_nonzero; lia.
Qed.

(** Between 2^53 and 2^54 the doubles are the even integers. *)
Lemma round53_near (z : Z) :
  Double.two53 < Z.abs z < 2 * Double.two53 ->
  Z.abs (Double.round53 z - z) <= 1 /\
  (0 < z -> Double.two53 <= Double.round53 z) /\
  (z < 0 -> Double.round53 z <= - Double.two53).
Proof.
  intros Hz. unfold Double.round53, Double.floorDiv.
  destruct (Z.eqb_spec z 0) as [->|Hnz]; [cbn in Hz; unfold Double.two53 in Hz; lia|].
  set (a := Z.abs z) in *. 
  assert (Z.log2 a = 53) as Hla.
  { apply Z.log2_unique; [lia|]. change (2 ^ 53) with Double.two53.
    change (2 ^ Z.succ 53) with (2 * Double.two53). lia. }
  unfold Double.roundPos. cbv zeta. rewrite Hla. change (Z.log2 1) with 0.
  change (53 - 0 - 53) with 0. rewrite scaled_zero. cbn [fst snd].
  rewrite Z.div_1_r.
  destruct (Z.leb_spec Double.two53 a); [|lia].
  change (0 + 1) with 1.
  replace (Double.scaled a 1 1) with (a, 2)
    by (unfold Double.scaled; cbn; rewrite Z.mul_1_r; reflexivity).
  cbn [fst snd]. unfold Double.floorOf. change (0 <=? 1) with true. cbv iota.
  change (2 ^ 1) with 2.
  pose proof (Z.div_mod a 2 ltac:(lia)) as Hdm.
  pose proof (Z.mod_pos_bound a 2 ltac:(lia)) as Hmod.
  assert (Z.even (a / 2) = true \/ Z.even (a / 2) = false) as [Hev|Hev]
    by (destruct (Z.even (a / 2)); auto).
  all: rewrite Hev.
  all: destruct (Z.ltb_spec (2 * (a mod 2)) 2);
    [|destruct (Z.ltb_spec 2 (2 * (a mod 2)))].
  all: unfold Double.two53 in *; subst a;
    destruct (Z.abs_spec z) as [[? Habs]|[? Habs]]; rewrite Habs in *;
    rewrite ?Z.sgn_pos, ?Z.sgn_neg by lia; lia.
Qed.

Lemma sub_doubles (x y : Z) :
  Z.abs (x - y) <= Double.two53 ->
  Double.sub (Num x) (Num y) = JS.sub (Num x) (Num y).
Proof.
  intros H. unfold Double.sub, JS.sub. rewrite round53_exact by assumption.
  reflexivity.
Qed.

Lemma calculateTimeUnits_doubles (d : Z) :
  0 <= d < Double.exactBelow ->
  Double.calculateTimeUnits (Num d) = calculateTimeUnits (Num d).
Proof.
  intros [Hd0 Hd1]. unfold Double.exactBelow in Hd1.
  unfold Double.calculateTimeUnits, calculateTimeUnits, Double.floor_div,
    JS.floor_div.
  assert (0 <= d / 1000 < 17592186044416) as Hs
    by (split; [apply Z.div_pos; lia|apply Z.div_lt_upper_bound; lia]).
  assert (0 <= d / 1000 / 60 < 17592186044416) as Hm
    by (split; [apply Z.div_pos; lia|apply Z.div_lt_upper_bound; lia]).
  assert (0 <= d / 1000 / 60 / 60 < 17592186044416) as Hh
    by (split; [apply Z.div_pos; lia|apply Z.div_lt_upper_bound; lia]).
  rewrite (floorDiv_exact d 1000)
    by (try lia; change (2 ^ Z.log2 1000) with 512; unfold Double.two53; lia).
  rewrite (floorDiv_exact (d / 1000) 60)
    by (try lia; change (2 ^ Z.log2 60) with 32; unfold Double.two53; lia).
  rewrite (floorDiv_exact (d / 1000 / 60) 60)
    by (try lia; change (2 ^ Z.log2 60) with 32; unfold Double.two53; lia).
  rewrite (floorDiv_exact (d / 1000 / 60 / 60) 24)
    by (try lia; change (2 ^ Z.log2 24) with 16; unfold Double.two53; lia).
  reflexivity.
Qed.

(** The difference of two valid dates, as the script computes it: the
    exact difference up to 2^53, otherwise at most one millisecond off,
    with its sign, and always where the division chain is exact. *)
Lemma double_difference_of_dates (target now : Z) :
  ESDate.ValidTime target -> ESDate.ValidTime now ->
  let difference := Double.round53 (target - now) in
  Double.sub (Num target) (Num now) = Num difference /\
  Z.abs (difference - (target - now)) <= 1 /\
  (Z.abs (target - now) <= Double.two53 -> difference = target - now) /\
  (0 < target - now -> 0 < difference < Double.exactBelow) /\
  (target - now <= 0 -> difference <= 0).
Proof.
  intros Ht Hn difference. unfold ESDate.ValidTime, ESDate.maxTime in *.
  split; [reflexivity|]. subst difference.
  destruct (Z_le_gt_dec (Z.abs (target - now)) Double.two53) as [Hsmall|Hlarge].
  - rewrite round53_exact by assumption.
    unfold Double.exactBelow, Double.two53 in *. lia.
  - destruct (round53_near (target - now)) as (Hnear & Hpos & Hneg);
      [unfold Double.two53 in *; lia|].
    unfold Double.exactBelow, Double.two53 in *. lia.
Qed.

Lemma tick_doubles (p : Page) (target now : Z) :
  targetDate p = Num target ->
  Z.abs (target - now) <= Double.two53 ->
  Double.tick (Num target) now = tick p now.
Proof.
  intros Ht Hd. rewrite (tick_valid p target now Ht). unfold Double.tick.
  rewrite sub_doubles by assumption. cbn [JS.sub JS.le].
  destruct (Z.leb_spec (target - now) 0); [reflexivity|].
  rewrite calculateTimeUnits_doubles; [reflexivity|].
  unfold Double.exactBelow, Double.two53 in *. lia.
Qed.

(** ** The decomposition claims *)

(** C1, as stated, fails beyond the range where doubles divide exactly.
    For 1e22 ms the quotient of the seconds by 60 is rounded, and the
    minutes come out as 36 where the chain of integer divisions gives 46.
    And for a target and a clock reading more than 2^53 ms apart, the
    difference itself is rounded: the tick decomposes 17279977881600000,
    not the 17279977881599999 ms that separate the two instants. *)
Lemma huge_duration_breaks_division_chain :
  Double.calculateTimeUnits (Num (10 ^ 22)) =
    {| days := Num 115740740740740; hours := Num 17;
       minutes := Num 36; seconds := Num 40 |} /\
  (10 ^ 22 / 1000 / 60) mod 60 = 46 /\
  Double.calculateTimeUnits (Num (10 ^ 22)) <> unitsOf (10 ^ 22) /\
  8639977881600000 - -8639999999999999 = 17279977881599999 /\
  Double.tick (Num 8639977881600000) (-8639999999999999) =
    Counting {| days := Num 199999744; hours := Num 0;
                minutes := Num 0; seconds := Num 0 |} /\
  unitsOf 17279977881599999 =
    {| days := Num 199999743; hours := Num 23;
       minutes := Num 59; seconds := Num 59 |}.
Proof.
  repeat split; try (vm_compute; reflexivity).
  vm_compute. discriminate.
Qed.

(** C1, amended. For every strictly positive remaining duration below
    1000 * 2^44 ms, the decomposition on doubles is the chain of integer
    divisions (totalSeconds = floor(remaining/1000), totalMinutes =
    floor(totalSeconds/60), totalHours = floor(totalMinutes/60), days =
    floor(totalHours/24), hours = totalHours mod 24, minutes = totalMinutes
    mod 60, seconds = totalSeconds mod 60), and a tick whose difference of
    dates is that duration returns Counting with these four units.  Every
    positive difference of two valid dates, as the script computes it, is
    such a duration: it is target - now itself up to 2^53 ms and at most
    one millisecond away from it beyond. *)
Theorem tick_decomposes_by_division_chain_on_doubles (remaining : Z) :
  0 < remaining < Double.exactBelow ->
  let totalSeconds := remaining / 1000 in
  let totalMinutes := totalSeconds / 60 in
  let totalHours := totalMinutes / 60 in
  let units :=
    {| days := Num (totalHours / 24);
       hours := Num (totalHours mod 24);
       minutes := Num (totalMinutes mod 60);
       seconds := Num (totalSeconds mod 60) |} in
  Double.calculateTimeUnits (Num remaining) = units /\
  (forall target now : Z,
     Double.sub (Num target) (Num now) = Num remaining ->
     Double.tick (Num target) now = Counting units) /\
  (forall (p : Page) (target now : Z),
     targetDate p = Num target -> target - now = remaining ->
     remaining <= Double.two53 ->
     Double.sub (Num target) (Num now) = Num remaining /\
     tick p now = Counting units) /\
  (forall target now : Z,
     ESDate.ValidTime target -> ESDate.ValidTime now -> 0 < target - now ->
     exists difference : Z,
       Double.sub (Num target) (Num now) = Num difference /\
       0 < difference < Double.exactBelow /\
       Z.abs (difference - (target - now)) <= 1 /\
       (target - now <= Double.two53 -> difference = target - now)).
Proof.
  intros [Hpos Hbelow] totalSeconds totalMinutes totalHours units.
  assert (Double.calculateTimeUnits (Num remaining) = units) as Hc.
  { rewrite calculateTimeUnits_doubles by lia.
    rewrite calculateTimeUnits_nonneg by lia. reflexivity. }
  split; [exact Hc|]. split; [|split].
  - intros target now Hsub. unfold Double.tick. rewrite Hsub. cbn [JS.le].
    destruct (Z.leb_spec remaining 0); [lia|]. rewrite Hc. reflexivity.
  - intros p target now Ht Hdiff Hsafe.
    assert (Z.abs (target - now) <= Double.two53) as Habs by lia.
    split.
    + rewrite sub_doubles by assumption. cbn [JS.sub]. rewrite Hdiff. reflexivity.
    + rewrite <- (tick_doubles p target now Ht Habs). unfold Double.tick.
      rewrite sub_doubles by assumption. cbn [JS.sub JS.le]. rewrite Hdiff.
      destruct (Z.leb_spec remaining 0); [lia|]. rewrite Hc. reflexivity.
  - intros target now Ht Hn Hleft.
    destruct (double_difference_of_dates target now Ht Hn)
      as (Hsub & Hnear & Hexact & Hrange & _).
    exists (Double.round53 (target - now)).
    split; [exact Hsub|]. split; [apply Hrange; exact Hleft|].
    split; [exact Hnear|]. intros Hsafe. apply Hexact. lia.
Qed.

Lemma tick_decomposes_by_division_chain_on_doubles_witness :
  Double.tick (Num newYear2025) mid2024 =
    Counting {| days := Num 199; hours := Num 12; minutes := Num 0; seconds := Num 0 |} /\
  tick page2024 mid2024 =
    Counting {| days := Num 199; hours := Num 12; minutes := Num 0; seconds := Num 0 |}.
Proof.
  assert (0 < newYear2025 - mid2024 < Double.exactBelow) as Hrange
    by (vm_compute; split; reflexivity).
  pose proof (tick_decomposes_by_division_chain_on_doubles
                (newYear2025 - mid2024) Hrange) as (_ & Hdouble & Hpage & _).
  split.
  - apply Hdouble. vm_compute. reflexivity.
  - apply (Hpage page2024 newYear2025 mid2024);
      [vm_compute; reflexivity|reflexivity|vm_compute; discriminate].
Defined.

(** C2, as stated, fails for durations beyond the range where doubles
    divide exactly: the units of 1e22 ms add up to 600000 ms less. *)
Lemma huge_duration_breaks_round_trip :
  Double.calculateTimeUnits (Num (10 ^ 22)) =
    {| days := Num 115740740740740; hours := Num 17;
       minutes := Num 36; seconds := Num 40 |} /\
  115740740740740 * 86400000 + 17 * 3600000 + 36 * 60000 + 40 * 1000
    + 10 ^ 22 mod 1000 = 10 ^ 22 - 600000 /\
  ~ (forall D H M S : Z,
       Double.calculateTimeUnits (Num (10 ^ 22)) =
         {| days := Num D; hours := Num H; minutes := Num M; seconds := Num S |} ->
       D * 86400000 + H * 3600000 + M * 60000 + S * 1000 + 10 ^ 22 mod 1000
       = 10 ^ 22).
Proof.
  split; [vm_compute; reflexivity|]. split; [vm_compute; reflexivity|].
  intros H. specialize (H 115740740740740 17 36 40 ltac:(vm_compute; reflexivity)).
  vm_compute in H. discriminate H.
Qed.

(** C2, amended. Round trip: for a non-negative duration [d] below
    1000 * 2^44 ms (which covers every difference of two valid dates), the
    units that [calculateTimeUnits] yields on doubles, weighted by their
    lengths in milliseconds and added to the sub-second remainder
    [d mod 1000], give [d] back. *)
Theorem calculateTimeUnits_round_trip_on_doubles (d : Z) :
  0 <= d < Double.exactBelow ->
  exists D H M S : Z,
    Double.calculateTimeUnits (Num d) =
      {| days := Num D; hours := Num H; minutes := Num M; seconds := Num S |} /\
    calculateTimeUnits (Num d) = Double.calculateTimeUnits (Num d) /\
    D * 86400000 + H * 3600000 + M * 60000 + S * 1000 + d mod 1000 = d.
Proof.
  intros Hd.
  exists (d / 1000 / 60 / 60 / 24), ((d / 1000 / 60 / 60) mod 24),
    ((d / 1000 / 60) mod 60), ((d / 1000) mod 60).
  rewrite calculateTimeUnits_doubles by assumption.
  split; [|split].
  - rewrite calculateTimeUnits_nonneg by lia. reflexivity.
  - reflexivity.
  - apply unitsOf_recompose.
Qed.

Lemma calculateTimeUnits_round_trip_on_doubles_witness :
  exists D H M S : Z,
    Double.calculateTimeUnits (Num 17236801234) =
      {| days := Num D; hours := Num H; minutes := Num M; seconds := Num S |} /\
    calculateTimeUnits (Num 17236801234) = Double.calculateTimeUnits (Num 17236801234) /\
    D * 86400000 + H * 3600000 + M * 60000 + S * 1000 + 17236801234 mod 1000
    = 17236801234.
Proof.
  apply (calculateTimeUnits_round_trip_on_doubles 17236801234).
  vm_compute. split; [discriminate|reflexivity].
Defined.

(** C5. For a non-negative duration the decomposition has hours in 0..23,
    minutes in 0..59, seconds in 0..59 and days at least 0; days has no
    upper bound: a duration of [n] whole days decomposes to [n] days. *)
Theorem calculateTimeUnits_ranges (d : Z) :
  0 <= d ->
  (exists D H M S : Z,
     calculateTimeUnits (Num d) =
       {| days := Num D; hours := Num H; minutes := Num M; seconds := Num S |} /\
     0 <= D /\ 0 <= H <= 23 /\ 0 <= M <= 59 /\ 0 <= S <= 59) /\
  days (calculateTimeUnits (Num (d * 86400000))) = Num d.
Proof.
  intros Hd. split.
  - exists (d / 1000 / 60 / 60 / 24), ((d / 1000 / 60 / 60) mod 24),
      ((d / 1000 / 60) mod 60), ((d / 1000) mod 60).
    split; [rewrite calculateTimeUnits_nonneg by assumption; reflexivity|].
    pose proof (Z.mod_pos_bound (d / 1000 / 60 / 60) 24 ltac:(lia)).
    pose proof (Z.mod_pos_bound (d / 1000 / 60) 60 ltac:(lia)).
    pose proof (Z.mod_pos_bound (d / 1000) 60 ltac:(lia)).
    repeat split; try lia.
    repeat (apply Z.div_pos; [|lia]). assumption.
  - rewrite calculateTimeUnits_Num. cbn [days]. f_equal.
    rewrite !Z.div_div by lia. apply Z.div_mul. lia.
Qed.

Lemma calculateTimeUnits_ranges_witness :
  0 <= 400000 /\
  days (calculateTimeUnits (Num (400000 * 86400000))) = Num 400000.
Proof.
  split; [lia|]. apply (proj2 (calculateTimeUnits_ranges 400000 ltac:(lia))).
Defined.

(** C10. In the last second before the target (0 < d < 1000) every unit is
    zero, although the tick is still counting. *)
Theorem last_second_counts_all_zero (d : Z) :
  0 < d < 1000 ->
  calculateTimeUnits (Num d) = zeroUnits /\
  forall (p : Page) (target now : Z),
    targetDate p = Num target -> target - now = d ->
    tick p now = Counting zeroUnits.
Proof.
  intros Hd.
  assert (calculateTimeUnits (Num d) = zeroUnits) as Hc.
  { rewrite calculateTimeUnits_Num.
    rewrite (Z.div_small d 1000) by lia. reflexivity. }
  split; [exact Hc|].
  intros p target now Ht Hdiff.
  rewrite (tick_valid p target now Ht), Hdiff.
  destruct (Z.leb_spec d 0) as [Hle|_]; [lia|].
  rewrite Hc. reflexivity.
Qed.

Lemma last_second_counts_all_zero_witness :
  0 < 1 < 1000 /\ tick page2024 (newYear2025 - 1) = Counting zeroUnits.
Proof.
  split; [lia|].
  apply (proj2 (last_second_counts_all_zero 1 ltac:(lia))
           page2024 newYear2025 (newYear2025 - 1)); reflexivity.
Defined.

(** ** Zero crossing *)

(** C3. A tick returns Elapsed exactly when target - now <= 0 and Counting
    otherwise; at now = target it returns Elapsed, and one millisecond
    after the target it returns Elapsed. *)
Theorem tick_elapsed_iff_not_positive (p : Page) (target now : Z) :
  targetDate p = Num target ->
  (tick p now = Elapsed <-> target - now <= 0) /\
  (~ target - now <= 0 ->
   tick p now = Counting (calculateTimeUnits (Num (target - now)))) /\
  tick p target = Elapsed /\
  tick p (target + 1) = Elapsed.
Proof.
  intros Ht.
  assert (forall n, target - n <= 0 -> tick p n = Elapsed) as Hel.
  { intros n Hn. rewrite (tick_valid p target n Ht).
    destruct (Z.leb_spec (target - n) 0); [reflexivity|lia]. }
  assert (forall n, ~ target - n <= 0 ->
            tick p n = Counting (calculateTimeUnits (Num (target - n)))) as Hco.
  { intros n Hn. rewrite (tick_valid p target n Ht).
    destruct (Z.leb_spec (target - n) 0); [lia|reflexivity]. }
  repeat split.
  - intros He. destruct (Z_le_gt_dec (target - now) 0) as [Hle|Hgt]; [exact Hle|].
    rewrite Hco in He by lia. discriminate He.
  - apply Hel.
  - apply Hco.
  - apply Hel. lia.
  - apply Hel. lia.
Qed.

Lemma tick_elapsed_iff_not_positive_witness :
  targetDate page2024 = Num newYear2025 /\
  tick page2024 newYear2025 = Elapsed /\
  tick page2024 (newYear2025 + 1) = Elapsed /\
  tick page2024 (newYear2025 - 1) <> Elapsed.
Proof.
  pose proof (tick_elapsed_iff_not_positive page2024 newYear2025
                (newYear2025 - 1) eq_refl) as (Hiff & _ & Hat & Hafter).
  split; [reflexivity|]. split; [exact Hat|]. split; [exact Hafter|].
  intros He. apply Hiff in He. vm_compute in He. apply He. reflexivity.
Defined.

(** ** What a run of [updateCountdown] leaves in the page *)

Lemma showCelebration_page (p : Page) :
  let p' := snd (showCelebration p) in
  targetDate p' = targetDate p /\
  celebrationShown p' = true /\
  calls p' = CallAddCelebrationFireworks :: CallShowCelebration :: calls p.
Proof. repeat split. Qed.

Lemma counting_page (p : Page) (diff : Number) :
  let u := calculateTimeUnits diff in
  let p' := snd (addNumberChangeEffect
                   (snd (updateDisplay u (snd (logCall (CallCalculateTimeUnits diff) p))))) in
  targetDate p' = targetDate p /\
  celebrationShown p' = celebrationShown p /\
  calls p' = CallAddNumberChangeEffect :: CallUpdateDisplay u
             :: CallCalculateTimeUnits diff :: calls p.
Proof. repeat split. Qed.

Lemma updateCountdown_targetDate (p : Page) (now : Z) :
  targetDate (snd (updateCountdown now p)) = targetDate p.
Proof.
  destruct (JS.le (JS.sub (targetDate p) (Num now)) (Num 0)) eqn:E.
  - rewrite updateCountdown_elapsed by assumption. apply showCelebration_page.
  - rewrite updateCountdown_counting by assumption. apply counting_page.
Qed.

Lemma updateCountdown_keeps_celebration (p : Page) (now : Z) :
  celebrationShown p = true ->
  celebrationShown (snd (updateCountdown now p)) = true.
Proof.
  intros Hc.
  destruct (JS.le (JS.sub (targetDate p) (Num now)) (Num 0)) eqn:E.
  - rewrite updateCountdown_elapsed by assumption. apply showCelebration_page.
  - rewrite updateCountdown_counting by assumption.
    rewrite <- Hc. apply counting_page.
Qed.

Lemma elapsed_shows_celebration (p : Page) (now : Z) :
  tick p now = Elapsed ->
  celebrationShown (snd (updateCountdown now p)) = true.
Proof.
  rewrite tick_unfold.
  destruct (JS.le (JS.sub (targetDate p) (Num now)) (Num 0)) eqn:E;
    [intros _|discriminate].
  rewrite updateCountdown_elapsed by assumption. apply showCelebration_page.
Qed.

Lemma updateCountdown_newCalls (p : Page) (now : Z) :
  let diff := JS.sub (targetDate p) (Num now) in
  newCalls (updateCountdown now) p =
  if JS.le diff (Num 0) then [CallShowCelebration; CallAddCelebrationFireworks]
  else [CallCalculateTimeUnits diff;
        CallUpdateDisplay (calculateTimeUnits diff);
        CallAddNumberChangeEffect].
Proof.
  intros diff. subst diff. unfold newCalls.
  destruct (JS.le (JS.sub (targetDate p) (Num now)) (Num 0)) eqn:E.
  - rewrite updateCountdown_elapsed by assumption. cbn [snd].
    destruct (showCelebration_page p) as (_ & _ & ->).
    cbn [List.length]. replace (S (S (length (calls p))) - length (calls p))%nat
      with 2%nat by lia. reflexivity.
  - rewrite updateCountdown_counting by assumption. cbn [snd].
    destruct (counting_page p (JS.sub (targetDate p) (Num now))) as (_ & _ & ->).
    cbn [List.length]. replace (S (S (S (length (calls p)))) - length (calls p))%nat
      with 3%nat by lia. reflexivity.
Qed.

Lemma updateCountdowns_cons (now : Z) (rest : list Z) (p : Page) :
  updateCountdowns (now :: rest) p =
  (tick p now :: fst (updateCountdowns rest (snd (updateCountdown now p))),
   snd (updateCountdowns rest (snd (updateCountdown now p)))).
Proof.
  unfold tick. cbn [updateCountdowns]. unfold bind, ret.
  destruct (updateCountdown now p) as [r p1]. cbn [fst snd].
  destruct (updateCountdowns rest p1) as [rs p2]. reflexivity.
Qed.

(** Once the celebration is shown, no sequence of ticks hides it, and the
    ticks at or after the target keep returning Elapsed. *)
Lemma celebrating_page_stays (target : Z) (nows : list Z) :
  forall p : Page,
    targetDate p = Num target -> celebrationShown p = true ->
    Forall2 (fun now r => target <= now -> r = Elapsed)
      nows (fst (updateCountdowns nows p)) /\
    celebrationShown (snd (updateCountdowns nows p)) = true /\
    targetDate (snd (updateCountdowns nows p)) = Num target.
Proof.
  induction nows as [|now rest IH]; intros p Ht Hc.
  - cbn. repeat split; [constructor|assumption|assumption].
  - rewrite updateCountdowns_cons. cbn [fst snd].
    destruct (IH (snd (updateCountdown now p))) as (Hrs & Hshown & Htarget).
    + rewrite updateCountdown_targetDate. exact Ht.
    + apply updateCountdown_keeps_celebration. exact Hc.
    + repeat split; [|assumption|assumption].
      constructor; [|exact Hrs].
      intros Hnow. rewrite (tick_valid p target now Ht).
      destruct (Z.leb_spec (target - now) 0); [reflexivity|lia].
Qed.

(** ** One-way transition *)

(** C6. For a fixed target instant, once a tick has returned Elapsed, every
    later tick whose clock reading is at or after the target returns
    Elapsed as well, and the celebration view, once shown, is never left:
    the change from counting to elapsed does not revert. *)
Theorem elapsed_never_reverts (p : Page) (target now1 : Z) :
  targetDate p = Num target ->
  tick p now1 = Elapsed ->
  let p1 := snd (updateCountdown now1 p) in
  celebrationShown p1 = true /\
  (forall now2, target <= now2 -> tick p1 now2 = Elapsed) /\
  (forall nows : list Z,
     Forall2 (fun now r => target <= now -> r = Elapsed)
       nows (fst (updateCountdowns nows p1)) /\
     celebrationShown (snd (updateCountdowns nows p1)) = true).
Proof.
  intros Ht He p1.
  assert (targetDate p1 = Num target) as Ht1.
  { subst p1. rewrite updateCountdown_targetDate. exact Ht. }
  assert (celebrationShown p1 = true) as Hc1.
  { subst p1. apply elapsed_shows_celebration. exact He. }
  split; [exact Hc1|]. split.
  - intros now2 Hnow2. rewrite (tick_valid p1 target now2 Ht1).
    destruct (Z.leb_spec (target - now2) 0); [reflexivity|lia].
  - intros nows.
    destruct (celebrating_page_stays target nows p1 Ht1 Hc1) as (H1 & H2 & _).
    split; assumption.
Qed.

Lemma elapsed_never_reverts_witness :
  targetDate page2024 = Num newYear2025 /\
  tick page2024 newYear2025 = Elapsed /\
  tick (snd (updateCountdown newYear2025 page2024)) (newYear2025 + 1000) = Elapsed.
Proof.
  split; [reflexivity|]. split; [reflexivity|].
  apply (proj1 (proj2 (elapsed_never_reverts page2024 newYear2025 newYear2025
                         eq_refl eq_refl))).
  vm_compute. discriminate.
Defined.

(** The restriction to clock readings at or after the target matters: if
    the clock is set back before the target, the tick counts again, while
    the celebration stays on display. *)
Lemma clock_set_back_counts_again :
  let p1 := snd (updateCountdown newYear2025 page2024) in
  tick page2024 newYear2025 = Elapsed /\
  tick p1 (newYear2025 - 1000) =
    Counting (mkTimeUnits (Num 0) (Num 0) (Num 0) (Num 1)) /\
  celebrationShown (snd (updateCountdown (newYear2025 - 1000) p1)) = true.
Proof. repeat split. Qed.

(** ** Arguments of [calculateTimeUnits] *)

(** C9, as stated, fails on a page whose [targetDate] is not set: the
    difference is [NaN], the guard [timeDifference <= 0] is false, and
    [calculateTimeUnits] is called with [NaN]. *)
Lemma unset_target_calculates_NaN :
  newCalls (updateCountdown 0) freshPage =
    [CallCalculateTimeUnits NaN;
     CallUpdateDisplay (mkTimeUnits NaN NaN NaN NaN);
     CallAddNumberChangeEffect] /\
  ~ calculatesPositiveOnly (newCalls (updateCountdown 0) freshPage).
Proof.
  split; [reflexivity|].
  intros H. destruct (H NaN) as (z & Hz & _); [left; reflexivity|discriminate Hz].
Qed.

(** C9, amended. When [targetDate] holds a valid date, [updateCountdown]
    calls [calculateTimeUnits] only with a strictly positive number of
    milliseconds, and it does call it whenever time is left; whatever
    [targetDate] holds, the argument is never zero or negative (it is [NaN]
    when the date is unset or invalid), so the quotients and remainders of
    [calculateTimeUnits] never see a negative operand. *)
Theorem updateCountdown_calculates_positive (p : Page) (now : Z) :
  let log := newCalls (updateCountdown now) p in
  (forall ms, In (CallCalculateTimeUnits ms) log ->
     ms = JS.sub (targetDate p) (Num now) /\
     (ms = NaN \/ exists z, ms = Num z /\ 0 < z)) /\
  (forall target, targetDate p = Num target ->
     calculatesPositiveOnly log /\
     (0 < target - now -> In (CallCalculateTimeUnits (Num (target - now))) log) /\
     (target - now <= 0 -> log = [CallShowCelebration; CallAddCelebrationFireworks])).
Proof.
  intros log.
  assert (forall ms, In (CallCalculateTimeUnits ms) log ->
     ms = JS.sub (targetDate p) (Num now) /\
     (ms = NaN \/ exists z, ms = Num z /\ 0 < z)) as Hgen.
  { intros ms Hin. subst log. rewrite updateCountdown_newCalls in Hin.
    cbv zeta in Hin.
    destruct (JS.le (JS.sub (targetDate p) (Num now)) (Num 0)) eqn:E.
    - destruct Hin as [Hin|[Hin|[]]]; discriminate Hin.
    - destruct Hin as [Hin|[Hin|[Hin|[]]]]; try discriminate Hin.
      injection Hin as <-. split; [reflexivity|].
      destruct (JS.sub (targetDate p) (Num now)) as [z|]; [right|left; reflexivity].
      exists z. split; [reflexivity|]. cbn in E.
      destruct (Z.leb_spec z 0); [discriminate E|lia]. }
  split; [exact Hgen|].
  intros target Ht. split; [|split].
  - intros ms Hin. destruct (Hgen ms Hin) as (Hms & [HNaN|Hpos]); [|exact Hpos].
    rewrite Ht in Hms. cbn in Hms. congruence.
  - intros Hpos. subst log. rewrite updateCountdown_newCalls. cbv zeta.
    rewrite Ht. cbn [JS.sub JS.le].
    destruct (Z.leb_spec (target - now) 0); [lia|]. left. reflexivity.
  - intros Hle. subst log. rewrite updateCountdown_newCalls. cbv zeta.
    rewrite Ht. cbn [JS.sub JS.le].
    destruct (Z.leb_spec (target - now) 0); [reflexivity|lia].
Qed.

Lemma updateCountdown_calculates_positive_witness :
  targetDate page2024 = Num newYear2025 /\
  calculatesPositiveOnly (newCalls (updateCountdown mid2024) page2024) /\
  In (CallCalculateTimeUnits (Num 17236800000))
    (newCalls (updateCountdown mid2024) page2024).
Proof.
  destruct (proj2 (updateCountdown_calculates_positive page2024 mid2024)
              newYear2025 eq_refl) as (Hpos & Hin & _).
  split; [reflexivity|]. split; [exact Hpos|].
  apply Hin. reflexivity.
Defined.

(** ** Decimal numerals and padding *)

Lemma digitValue_digitChar (d : Z) :
  0 <= d <= 9 -> JS.digitValue (JS.digitChar d) = Some d.
Proof.
  intros Hd.
  assert (d = 0 \/ d = 1 \/ d = 2 \/ d = 3 \/ d = 4 \/ d = 5 \/ d = 6 \/
          d = 7 \/ d = 8 \/ d = 9) as Hcases by lia.
  repeat (destruct Hcases as [->|Hcases]; [reflexivity|]).
  subst d. reflexivity.
Qed.

Lemma parseDigits_push (d : Z) (s : string) (acc : Z) :
  0 <= d <= 9 ->
  JS.parseDigits (String (JS.digitChar d) s) acc = JS.parseDigits s (10 * acc + d).
Proof.
  intros Hd. cbn [JS.parseDigits]. rewrite digitValue_digitChar by assumption.
  reflexivity.
Qed.

Lemma decimalDigits_length (fuel : nat) :
  forall (n : Z) (acc : string),
    (String.length acc <= String.length (JS.decimalDigits fuel n acc))%nat.
Proof.
  induction fuel as [|fuel IH]; intros n acc; cbn [JS.decimalDigits].
  - lia.
  - destruct (n <? 10).
    + cbn [String.length]. lia.
    + specialize (IH (n / 10) (String (JS.digitChar (n mod 10)) acc)).
      cbn [String.length] in IH. lia.
Qed.

(** With fuel for every binary digit of [n], the numeral is complete: it
    reads back as [n]. *)
Lemma parseDigits_decimalDigits (fuel : nat) :
  forall (n : Z) (acc : string),
    0 <= n < 2 ^ Z.of_nat fuel ->
    JS.parseDigits (JS.decimalDigits fuel n acc) 0 = JS.parseDigits acc n.
Proof.
  induction fuel as [|fuel IH]; intros n acc Hn.
  - cbn [JS.decimalDigits]. replace n with 0 by (cbn in Hn; lia). reflexivity.
  - cbn [JS.decimalDigits].
    pose proof (Z.mod_pos_bound n 10 ltac:(lia)) as Hmod.
    destruct (Z.ltb_spec n 10) as [Hsmall|Hbig].
    + rewrite parseDigits_push by lia.
      rewrite Z.mod_small by lia. reflexivity.
    + rewrite IH.
      * rewrite parseDigits_push by lia.
        f_equal. pose proof (Z.div_mod n 10 ltac:(lia)). lia.
      * rewrite Nat2Z.inj_succ, Z.pow_succ_r in Hn by lia.
        split; [apply Z.div_pos; lia|].
        apply Z.div_lt_upper_bound; lia.
Qed.

Lemma natToString_reads_back (n : Z) :
  0 <= n -> JS.parseDigits (JS.natToString n) 0 = Some n.
Proof.
  intros Hn. unfold JS.natToString.
  rewrite parseDigits_decimalDigits; [reflexivity|].
  split; [assumption|].
  rewrite Nat2Z.inj_succ, Z2Nat.id by apply Z.log2_nonneg.
  destruct (Z.eq_dec n 0) as [->|Hnz]; [reflexivity|].
  apply Z.log2_spec. lia.
Qed.

Lemma natToString_one_digit (n : Z) :
  0 <= n < 10 -> JS.natToString n = String (JS.digitChar n) EmptyString.
Proof.
  intros Hn. unfold JS.natToString. cbn [JS.decimalDigits].
  destruct (Z.ltb_spec n 10); [|lia].
  rewrite Z.mod_small by lia. reflexivity.
Qed.

Lemma natToString_two_digits (n : Z) :
  10 <= n < 100 ->
  JS.natToString n =
  String (JS.digitChar (n / 10)) (String (JS.digitChar (n mod 10)) EmptyString).
Proof.
  intros Hn. unfold JS.natToString.
  assert (3 <= Z.log2 n) as Hlog by (apply (Z.log2_le_pow2 n 3); lia).
  destruct (Z.to_nat (Z.log2 n)) as [|fuel] eqn:E; [lia|].
  cbn [JS.decimalDigits].
  destruct (Z.ltb_spec n 10); [lia|].
  destruct (Z.ltb_spec (n / 10) 10) as [_|Hbig].
  - rewrite (Z.mod_small (n / 10)); [reflexivity|].
    split; [apply Z.div_pos; lia|apply Z.div_lt_upper_bound; lia].
  - assert (n / 10 < 10) by (apply Z.div_lt_upper_bound; lia). lia.
Qed.

Lemma natToString_long (n : Z) :
  10 <= n -> (2 <= String.length (JS.natToString n))%nat.
Proof.
  intros Hn. unfold JS.natToString.
  assert (3 <= Z.log2 n) as Hlog by (apply (Z.log2_le_pow2 n 3); lia).
  destruct (Z.to_nat (Z.log2 n)) as [|fuel] eqn:E; [lia|].
  cbn [JS.decimalDigits].
  destruct (Z.ltb_spec n 10); [lia|].
  destruct (n / 10 <? 10).
  - cbn [String.length]. lia.
  - pose proof (decimalDigits_length fuel (n / 10 / 10)
        (String (JS.digitChar (n / 10 mod 10))
           (String (JS.digitChar (n mod 10)) EmptyString))) as Hlen.
    cbn [String.length] in Hlen. exact Hlen.
Qed.

Lemma formatNumber_below_ten (n : Z) :
  0 <= n < 10 ->
  formatNumber (Num n) = String "0"%char (JS.toString (Num n)) /\
  formatNumber (Num n) = String "0"%char (String (JS.digitChar n) EmptyString).
Proof.
  intros Hn. unfold formatNumber, JS.toString.
  destruct (Z.ltb_spec n 0); [lia|].
  rewrite natToString_one_digit by assumption. split; reflexivity.
Qed.

Lemma formatNumber_from_ten (n : Z) :
  10 <= n -> formatNumber (Num n) = JS.toString (Num n).
Proof.
  intros Hn. unfold formatNumber, JS.toString, JS.padStart.
  destruct (Z.ltb_spec n 0); [lia|].
  pose proof (natToString_long n Hn) as Hlen.
  destruct (Nat.leb_spec 2 (String.length (JS.natToString n))); [reflexivity|lia].
Qed.

Lemma formatNumber_reads_back (n : Z) :
  0 <= n -> JS.parseDigits (formatNumber (Num n)) 0 = Some n.
Proof.
  intros Hn. destruct (Z_lt_le_dec n 10) as [Hsmall|Hbig].
  - destruct (formatNumber_below_ten n ltac:(lia)) as [_ ->].
    change "0"%char with (JS.digitChar 0).
    rewrite !parseDigits_push by lia. cbn [JS.parseDigits]. f_equal; lia.
  - rewrite formatNumber_from_ten by assumption. unfold JS.toString.
    destruct (Z.ltb_spec n 0); [lia|]. apply natToString_reads_back. lia.
Qed.

Lemma formatNumber_two_digits (n : Z) :
  0 <= n < 100 -> twoDigitsOf n (formatNumber (Num n)).
Proof.
  intros Hn. split; [|apply formatNumber_reads_back; lia].
  destruct (Z_lt_le_dec n 10) as [Hsmall|Hbig].
  - destruct (formatNumber_below_ten n ltac:(lia)) as [_ ->]. reflexivity.
  - rewrite formatNumber_from_ten by assumption. unfold JS.toString.
    destruct (Z.ltb_spec n 0); [lia|].
    rewrite natToString_two_digits by lia. reflexivity.
Qed.

Lemma displayed_fields (u : TimeUnits) (p : Page) :
  displayed u p "days" = Some (formatNumber (days u)) /\
  displayed u p "hours" = Some (formatNumber (hours u)) /\
  displayed u p "minutes" = Some (formatNumber (minutes u)) /\
  displayed u p "seconds" = Some (formatNumber (seconds u)).
Proof.
  unfold displayed, updateDisplay, bind, logCall, setTextContent.
  cbn [fst snd textContent].
  repeat split; simplify_map_eq; reflexivity.
Qed.

(** ** Display formatting *)

(** C4, as stated, fails: with 5 days left the days field reads 05, not
    the unpadded numeral 5. *)
Lemma days_field_is_padded :
  displayed (mkTimeUnits (Num 5) (Num 12) (Num 0) (Num 0)) freshPage "days"
    = Some "05"%string /\
  JS.toString (Num 5) = "5"%string /\
  ~ displaysDaysUnpadded 5 12 0 0 freshPage.
Proof.
  assert (displayed (mkTimeUnits (Num 5) (Num 12) (Num 0) (Num 0)) freshPage "days"
          = Some "05"%string) as Hd.
  { rewrite (proj1 (displayed_fields _ _)). reflexivity. }
  split; [exact Hd|]. split; [reflexivity|].
  intros (Hdays & _). rewrite Hd in Hdays. discriminate Hdays.
Qed.

(** C4, amended. [updateDisplay] formats all four fields alike, padding
    with zeros to a width of at least 2: hours, minutes and seconds are
    shown on exactly two digits; days below 10 are shown with a leading
    zero, days from 10 on as their plain numeral, however long. *)
Theorem updateDisplay_pads_every_field (D H M S : Z) (p : Page) :
  0 <= D -> 0 <= H <= 23 -> 0 <= M <= 59 -> 0 <= S <= 59 ->
  let u := mkTimeUnits (Num D) (Num H) (Num M) (Num S) in
  (exists td, displayed u p "days" = Some td /\
     (D < 10 -> td = String "0"%char (JS.toString (Num D))) /\
     (10 <= D -> td = JS.toString (Num D)) /\
     (2 <= String.length td)%nat /\
     JS.parseDigits td 0 = Some D) /\
  (exists th, displayed u p "hours" = Some th /\ twoDigitsOf H th) /\
  (exists tm, displayed u p "minutes" = Some tm /\ twoDigitsOf M tm) /\
  (exists ts, displayed u p "seconds" = Some ts /\ twoDigitsOf S ts).
Proof.
  intros HD HH HM HS u.
  destruct (displayed_fields u p) as (Hd & Hh & Hm & Hs).
  subst u. cbn [days hours minutes seconds] in *.
  split; [|split; [|split]].
  - exists (formatNumber (Num D)). split; [exact Hd|].
    split; [|split; [|split]].
    + intros Hsmall. apply formatNumber_below_ten. lia.
    + apply formatNumber_from_ten.
    + destruct (Z_lt_le_dec D 10) as [Hsmall|Hbig].
      * destruct (formatNumber_below_ten D ltac:(lia)) as [_ ->].
        cbn [String.length]. lia.
      * rewrite formatNumber_from_ten by assumption. unfold JS.toString.
        destruct (Z.ltb_spec D 0); [lia|]. apply natToString_long. assumption.
    + apply formatNumber_reads_back. assumption.
  - exists (formatNumber (Num H)). split; [exact Hh|].
    apply formatNumber_two_digits. lia.
  - exists (formatNumber (Num M)). split; [exact Hm|].
    apply formatNumber_two_digits. lia.
  - exists (formatNumber (Num S)). split; [exact Hs|].
    apply formatNumber_two_digits. lia.
Qed.

Lemma updateDisplay_pads_every_field_witness :
  (0 <= 5 /\ 0 <= 7 <= 23 /\ 0 <= 0 <= 59 /\ 0 <= 59 <= 59) /\
  exists th, displayed (mkTimeUnits (Num 5) (Num 7) (Num 0) (Num 59))
               freshPage "hours" = Some th /\ twoDigitsOf 7 th.
Proof.
  split; [lia|].
  apply (updateDisplay_pads_every_field 5 7 0 59 freshPage); lia.
Defined.

(** ** The calendar *)

Lemma DayFromYear_step (y : Z) :
  ESDate.DayFromYear (y + 1) = ESDate.DayFromYear y + ESDate.DaysInYear y.
Proof.
  unfold ESDate.DayFromYear, ESDate.DaysInYear.
  destruct (Z.eqb_spec (y mod 4) 0), (Z.eqb_spec (y mod 100) 0),
    (Z.eqb_spec (y mod 400) 0); cbn [negb]; floor_arith.
Qed.

Lemma DayFromYear_lt (y1 y2 : Z) :
  y1 < y2 -> ESDate.DayFromYear y1 < ESDate.DayFromYear y2.
Proof. unfold ESDate.DayFromYear. intros H. floor_arith. Qed.

Lemma DayFromYear_le (y1 y2 : Z) :
  y1 <= y2 -> ESDate.DayFromYear y1 <= ESDate.DayFromYear y2.
Proof. unfold ESDate.DayFromYear. intros H. floor_arith. Qed.

(** The estimate of [YearFromDay] is off by at most one year, so the
    corrected year is the one that contains day [d]. *)
Lemma YearFromDay_spec (d : Z) :
  ESDate.DayFromYear (ESDate.YearFromDay d) <= d
  < ESDate.DayFromYear (ESDate.YearFromDay d + 1).
Proof.
  unfold ESDate.YearFromDay. cbv zeta.
  destruct (Z.ltb_spec d (ESDate.DayFromYear (1970 + d * 400 / 146097))).
  - unfold ESDate.DayFromYear in *. floor_arith.
  - destruct (Z.leb_spec (ESDate.DayFromYear (1970 + d * 400 / 146097 + 1)) d).
    + unfold ESDate.DayFromYear in *. floor_arith.
    + lia.
Qed.

Lemma YearFromDay_unique (d y : Z) :
  ESDate.DayFromYear y <= d < ESDate.DayFromYear (y + 1) ->
  ESDate.YearFromDay d = y.
Proof.
  intros Hy. pose proof (YearFromDay_spec d) as Hs.
  destruct (Z.lt_trichotomy (ESDate.YearFromDay d) y) as [Hlt|[Heq|Hgt]];
    [|exact Heq|].
  - pose proof (DayFromYear_le (ESDate.YearFromDay d + 1) y ltac:(lia)). lia.
  - pose proof (DayFromYear_le (y + 1) (ESDate.YearFromDay d) ltac:(lia)). lia.
Qed.

(** [YearFromTime t] is the largest year that starts at or before [t]. *)
Lemma YearFromTime_spec (t : Z) :
  ESDate.TimeFromYear (ESDate.YearFromTime t) <= t
  < ESDate.TimeFromYear (ESDate.YearFromTime t + 1).
Proof.
  unfold ESDate.TimeFromYear, ESDate.YearFromTime.
  pose proof (YearFromDay_spec (ESDate.Day t)) as Hs.
  unfold ESDate.Day, ESDate.msPerDay in *. floor_arith.
Qed.

Lemma YearFromTime_largest (t y : Z) :
  ESDate.TimeFromYear y <= t -> y <= ESDate.YearFromTime t.
Proof.
  intros Hy. pose proof (YearFromTime_spec t) as Hs.
  destruct (Z_le_gt_dec y (ESDate.YearFromTime t)) as [Hle|Hgt]; [exact Hle|].
  pose proof (DayFromYear_le (ESDate.YearFromTime t + 1) y ltac:(lia)).
  unfold ESDate.TimeFromYear, ESDate.msPerDay in *. lia.
Qed.

Lemma Day_TimeFromYear (y : Z) :
  ESDate.Day (ESDate.TimeFromYear y) = ESDate.DayFromYear y.
Proof.
  unfold ESDate.Day, ESDate.TimeFromYear, ESDate.msPerDay.
  rewrite Z.mul_comm. apply Z.div_mul. lia.
Qed.

Lemma YearFromTime_TimeFromYear (y : Z) :
  ESDate.YearFromTime (ESDate.TimeFromYear y) = y.
Proof.
  unfold ESDate.YearFromTime. rewrite Day_TimeFromYear.
  apply YearFromDay_unique.
  pose proof (DayFromYear_lt y (y + 1) ltac:(lia)). lia.
Qed.

Lemma TimeFromYear_is_midnight (y : Z) :
  isNewYearMidnight y (ESDate.TimeFromYear y).
Proof.
  assert (ESDate.DayWithinYear (ESDate.TimeFromYear y) = 0) as Hday.
  { unfold ESDate.DayWithinYear.
    rewrite Day_TimeFromYear, YearFromTime_TimeFromYear. lia. }
  assert (ESDate.MonthFromTime (ESDate.TimeFromYear y) = 0) as Hmonth.
  { unfold ESDate.MonthFromTime. rewrite Hday. reflexivity. }
  unfold isNewYearMidnight.
  split; [apply YearFromTime_TimeFromYear|].
  split; [exact Hmonth|].
  split; [unfold ESDate.DateFromTime; rewrite Hmonth, Hday; reflexivity|].
  unfold ESDate.HourFromTime, ESDate.MinFromTime, ESDate.SecFromTime,
    ESDate.msFromTime, ESDate.TimeFromYear, ESDate.msPerDay, ESDate.msPerHour,
    ESDate.msPerMinute, ESDate.msPerSecond.
  repeat split; floor_arith.
Qed.

Lemma MakeDay_first_of_January (year : Z) :
  ESDate.MakeDay year 0 1 = ESDate.DayFromYear year.
Proof.
  unfold ESDate.MakeDay. change (0 / 12) with 0. change (0 mod 12) with 0.
  replace (year + 0) with year by lia.
  unfold ESDate.daysBeforeMonth. cbv beta iota zeta. lia.
Qed.

Section ZoneFacts.
Context {tz : HostTimeZone}.

(** Outside the two-digit years, a valid 1 January midnight is built
    from [TimeFromYear]. *)
Lemma construct_new_year (year : Z) :
  ~ 0 <= year <= 99 ->
  Z.abs (ESDate.UTC (ESDate.TimeFromYear year)) <= ESDate.maxTime ->
  ESDate.construct year 0 1 0 0 0 = Num (ESDate.UTC (ESDate.TimeFromYear year)).
Proof.
  intros Hyear Hclip. unfold ESDate.construct.
  replace ((0 <=? year) && (year <=? 99)) with false
    by (symmetry; apply andb_false_iff; lia).
  rewrite MakeDay_first_of_January.
  replace (ESDate.MakeDate (ESDate.DayFromYear year) (ESDate.MakeTime 0 0 0 0))
    with (ESDate.TimeFromYear year)
    by (unfold ESDate.MakeDate, ESDate.MakeTime, ESDate.TimeFromYear; lia).
  unfold ESDate.TimeClip.
  destruct (Z.ltb_spec ESDate.maxTime
              (Z.abs (ESDate.UTC (ESDate.TimeFromYear year)))); [lia|reflexivity].
Qed.

Lemma selectTargetYear_next (now : Z) :
  selectTargetYear now = ESDate.getFullYear now + 1.
Proof.
  unfold selectTargetYear. cbv zeta.
  destruct (JS.ge (Num now)
              (ESDate.construct (ESDate.getFullYear now) 0 1 0 0 0));
    reflexivity.
Qed.

Lemma initializeCountdown_page (now : Z) (p : Page) :
  let p' := snd (initializeCountdown now p) in
  let targetYear := ESDate.getFullYear now + 1 in
  targetDate p' = ESDate.construct targetYear 0 1 0 0 0 /\
  textContent p' !! "target-year" = Some (JS.toString (Num targetYear)) /\
  textContent p' !! "current-year" = Some (JS.toString (Num targetYear)).
Proof.
  unfold initializeCountdown. rewrite selectTargetYear_next.
  unfold bind, setTargetDate, setTextContent. cbn [fst snd targetDate textContent].
  repeat split; simplify_map_eq; reflexivity.
Qed.
End ZoneFacts.

Lemma fixedZone_keeps_new_year (offset : Z) :
  Z.abs offset < ESDate.msPerDay -> ZoneKeepsNewYear (fixedZone offset).
Proof.
  intros Hoff. split.
  - intros t isUTC. exact Hoff.
  - intros t y. unfold ESDate.LocalTime, ESDate.UTC. cbn [LocalTZA fixedZone]. lia.
Qed.

(** A clock set back by an hour keeps New Year in order as long as the
    repeated hour contains no midnight. *)
Lemma zoneFallBack_keeps_new_year (at_utc : Z) :
  0 < at_utc mod ESDate.msPerDay <= ESDate.msPerDay - 3600000 ->
  ZoneKeepsNewYear (zoneFallBack at_utc).
Proof.
  intros Hoff. split.
  - intros t isUTC. cbn [LocalTZA zoneFallBack]. unfold ESDate.msPerDay.
    destruct isUTC; [destruct (t <? at_utc)|destruct (t <? at_utc + 3600000)];
      reflexivity.
  - intros t y. unfold ESDate.LocalTime, ESDate.UTC, ESDate.TimeFromYear.
    cbn [LocalTZA zoneFallBack].
    generalize (ESDate.DayFromYear y). intros k. unfold ESDate.msPerDay in *.
    destruct (Z.ltb_spec t at_utc);
      destruct (Z.ltb_spec (86400000 * k) (at_utc + 3600000));
      intros Hlocal; floor_arith.
Qed.

(** ** Initialisation *)

(** For an instant in the year 50 the script asks
    for [new Date(51, 0, 1, 0, 0, 0)], and a year from 0 to 99 given to
    the Date constructor stands for 1900 + year, so the target is
    1 January 1951 and not 1 January of the year 51. *)
Lemma two_digit_year_targets_1951 :
  @ESDate.getFullYear zoneUTC year50 = 50 /\
  targetDate (snd (@initializeCountdown zoneUTC year50 freshPage))
    = Num (-599616000000) /\
  ESDate.YearFromTime (-599616000000) = 1951 /\
  ESDate.MonthFromTime (-599616000000) = 0 /\
  ESDate.DateFromTime (-599616000000) = 1 /\
  ~ @targetsNextNewYear zoneUTC year50 freshPage.
Proof.
  split; [reflexivity|]. split; [reflexivity|]. split; [reflexivity|].
  split; [reflexivity|]. split; [reflexivity|].
  intros (target & l & Ht & Hutc & (Hyear & _) & _).
  vm_compute in Ht. injection Ht as <-.
  unfold ESDate.UTC in Hutc. cbn [LocalTZA zoneUTC fixedZone] in Hutc.
  replace l with (-599616000000) in Hyear by lia.
  vm_compute in Hyear. discriminate Hyear.
Qed.

(** In the last year a date can hold, 275760, the 1 January that follows
    is beyond the range of time values: the target is an invalid date. *)
Lemma last_year_has_no_target :
  @ESDate.getFullYear zoneUTC ESDate.maxTime = 275760 /\
  targetDate (snd (@initializeCountdown zoneUTC ESDate.maxTime freshPage)) = NaN /\
  ~ @targetsNextNewYear zoneUTC ESDate.maxTime freshPage.
Proof.
  split; [reflexivity|]. split; [reflexivity|].
  intros (target & l & Ht & _). vm_compute in Ht. discriminate Ht.
Qed.

(** Where the clocks are set back across midnight of 1 January, an
    instant of the repeated half hour still reads as the old year, and the
    target, read with the offset in force before the change, is already
    past. *)
Lemma clock_set_back_across_new_year :
  @ESDate.getFullYear zoneNewYearFallBack afterFallBack = 2024 /\
  targetDate (snd (@initializeCountdown zoneNewYearFallBack afterFallBack freshPage))
    = Num (newYear2025 - 3600000) /\
  newYear2025 - 3600000 < afterFallBack /\
  ~ ZoneKeepsNewYear zoneNewYearFallBack.
Proof.
  split; [reflexivity|]. split; [reflexivity|]. split; [reflexivity|].
  intros [_ Hahead].
  specialize (Hahead afterFallBack 2025 eq_refl).
  vm_compute in Hahead. discriminate Hahead.
Qed.

(** Where the script does reach its goal: for a valid instant [now] whose
    local year [y] is neither a year from -1 to 98 nor the last year
    275760, on a host whose zone offsets are shorter than a day and whose
    clocks are never set back across a New Year midnight,
    [initializeCountdown] sets the target to local time 1 January 00:00:00
    of [y + 1], shows that year, and the target is strictly after [now]. *)
Theorem initializeCountdown_targets_next_new_year
    {tz : HostTimeZone} (now : Z) (p : Page) :
  ZoneKeepsNewYear tz ->
  ESDate.ValidTime now ->
  ~ -1 <= ESDate.getFullYear now <= 98 ->
  ESDate.getFullYear now < 275760 ->
  targetsNextNewYear now p /\
  targetDate (snd (initializeCountdown now p))
    = Num (ESDate.UTC (ESDate.TimeFromYear (ESDate.getFullYear now + 1))) /\
  textContent (snd (initializeCountdown now p)) !! "target-year"
    = Some (JS.toString (Num (ESDate.getFullYear now + 1))).
Proof.
  intros [Hshort Hahead] [Hlow Hhigh] Hyear Hlast.
  set (y := ESDate.getFullYear now) in *.
  set (l := ESDate.TimeFromYear (y + 1)).
  assert (ESDate.LocalTime now < l) as Hlocal.
  { subst l y. unfold ESDate.getFullYear.
    apply (YearFromTime_spec (ESDate.LocalTime now)). }
  assert (now < ESDate.UTC l) as Hafter by (apply Hahead; exact Hlocal).
  assert (ESDate.UTC l <= ESDate.maxTime) as Hupper.
  { pose proof (DayFromYear_le (y + 1) 275760 ltac:(lia)) as Hday.
    change (ESDate.DayFromYear 275760) with 99999744 in Hday.
    specialize (Hshort l false).
    unfold ESDate.UTC. subst l.
    unfold ESDate.TimeFromYear, ESDate.msPerDay, ESDate.maxTime in *. lia. }
  assert (targetDate (snd (initializeCountdown now p)) = Num (ESDate.UTC l)) as Ht.
  { rewrite (proj1 (initializeCountdown_page now p)). fold y.
    apply construct_new_year; [lia|]. fold l.
    unfold ESDate.maxTime in *. lia. }
  split; [|split].
  - exists (ESDate.UTC l), l. split; [exact Ht|]. split; [reflexivity|].
    split; [apply TimeFromYear_is_midnight|exact Hafter].
  - exact Ht.
  - apply (initializeCountdown_page now p).
Qed.

Lemma initializeCountdown_targets_next_new_year_witness :
  ZoneKeepsNewYear zoneIST /\
  ESDate.ValidTime mid2024 /\
  @ESDate.getFullYear zoneIST mid2024 = 2024 /\
  targetDate (snd (@initializeCountdown zoneIST mid2024 freshPage))
    = Num (newYear2025 - 19800000).
Proof.
  assert (ZoneKeepsNewYear zoneIST) as Hzone
    by (apply fixedZone_keeps_new_year; reflexivity).
  assert (ESDate.ValidTime mid2024) as Hvalid by (vm_compute; split; discriminate).
  split; [exact Hzone|]. split; [exact Hvalid|]. split; [reflexivity|].
  apply (proj1 (proj2 (@initializeCountdown_targets_next_new_year zoneIST mid2024
                         freshPage Hzone Hvalid
                         ltac:(vm_compute; intros [_ H]; apply H; reflexivity)
                         eq_refl))).
Defined.

(** C7. The script misses its stated goal, "January 1st of next year", on
    two kinds of clock readings.  In the year 50 (UTC host) it labels the
    target year 51 but sets the target to 1 January 1951, because the Date
    constructor reads a year from 0 to 99 as 1900 + year.  And in Phoenix
    at 23:30 on 31 December 1943, after the clocks were set back across
    midnight, the target it sets is half an hour in the past, so the first
    tick already finds the countdown elapsed. *)
Theorem initializeCountdown_misses_next_new_year :
  let p50 := snd (@initializeCountdown zoneUTC year50 freshPage) in
  let p43 := snd (@initializeCountdown zonePhoenix1944 phoenixSecondEvening freshPage) in
  (@ESDate.getFullYear zoneUTC year50 = 50 /\
   textContent p50 !! "target-year"%string = Some "51"%string /\
   targetDate p50 = Num (-599616000000) /\
   ESDate.YearFromTime (@ESDate.LocalTime zoneUTC (-599616000000)) = 1951 /\
   ~ @targetsNextNewYear zoneUTC year50 freshPage) /\
  (@ESDate.getFullYear zonePhoenix1944 phoenixSecondEvening = 1943 /\
   textContent p43 !! "target-year"%string = Some "1944"%string /\
   targetDate p43 = Num (phoenixSecondEvening - 30 * ESDate.msPerMinute) /\
   tick p43 phoenixSecondEvening = Elapsed /\
   ~ @targetsNextNewYear zonePhoenix1944 phoenixSecondEvening freshPage).
Proof.
  cbv zeta. split.
  - split; [vm_compute; reflexivity|]. split; [vm_compute; reflexivity|].
    split; [vm_compute; reflexivity|]. split; [vm_compute; reflexivity|].
    intros (target & l & Ht & Hutc & (Hyear & _) & _).
    vm_compute in Ht. injection Ht as <-.
    unfold ESDate.UTC in Hutc. cbn [LocalTZA zoneUTC fixedZone] in Hutc.
    replace l with (-599616000000) in Hyear by lia.
    vm_compute in Hyear. discriminate Hyear.
  - split; [vm_compute; reflexivity|]. split; [vm_compute; reflexivity|].
    split; [vm_compute; reflexivity|]. split; [vm_compute; reflexivity|].
    intros (target & l & Ht & _ & _ & Hafter).
    vm_compute in Ht. injection Ht as <-.
    vm_compute in Hafter. discriminate Hafter.
Qed.

(** C8. The conditional of the year selection has no effect: whichever way
    the test [now >= newYearThisYear] goes, the target year is the current
    year plus one, and [initializeCountdown] leaves the page exactly as the
    initialisation that always targets the next year does. *)
Theorem year_selection_branch_has_no_effect
    {tz : HostTimeZone} (now : Z) (p : Page) :
  selectTargetYear now = ESDate.getFullYear now + 1 /\
  initializeCountdown now p = initializeNextYear now p /\
  targetDate (snd (initializeCountdown now p))
    = targetDate (snd (initializeNextYear now p)).
Proof.
  pose proof (selectTargetYear_next now) as Hsel.
  assert (initializeCountdown now p = initializeNextYear now p) as Heq.
  { unfold initializeCountdown, initializeNextYear. rewrite Hsel. reflexivity. }
  split; [exact Hsel|]. split; [exact Heq|]. rewrite Heq. reflexivity.
Qed.

(** ** Further properties of the script *)

(** *** What the handlers leave in the page *)

Lemma showCelebration_result (p : Page) :
  snd (showCelebration p) =
  mkPage (targetDate p) (countdownInterval p)
    (match countdownInterval p with
     | Some id => timers p ∖ {[ id ]}
     | None => timers p
     end)
    (textContent p)
    (<[("#celebration", "animation")%string := "celebrationBounce 1s ease-out"%string]>
       (<[(".target-date", "display")%string := "none"%string]>
          (<[(".countdown-container", "display")%string := "none"%string]> (style p))))
    true (10 + fireworks p)%nat
    (CallAddCelebrationFireworks :: CallShowCelebration :: calls p).
Proof. reflexivity. Qed.

Lemma counting_result (p : Page) (diff : Number) :
  let u := calculateTimeUnits diff in
  snd (addNumberChangeEffect
         (snd (updateDisplay u (snd (logCall (CallCalculateTimeUnits diff) p))))) =
  mkPage (targetDate p) (countdownInterval p) (timers p)
    (<["seconds"%string := formatNumber (seconds u)]>
       (<["minutes"%string := formatNumber (minutes u)]>
          (<["hours"%string := formatNumber (hours u)]>
             (<["days"%string := formatNumber (days u)]> (textContent p)))))
    (<[(".countdown-number", "transform")%string := "scale(1.1)"%string]> (style p))
    (celebrationShown p) (fireworks p)
    (CallAddNumberChangeEffect :: CallUpdateDisplay u
     :: CallCalculateTimeUnits diff :: calls p).
Proof. reflexivity. Qed.

(** The page after one run of [updateCountdown], by the exit taken. *)
Lemma updateCountdown_result (p : Page) (now : Z) :
  let diff := JS.sub (targetDate p) (Num now) in
  snd (updateCountdown now p) =
  if JS.le diff (Num 0) then snd (showCelebration p)
  else snd (addNumberChangeEffect
              (snd (updateDisplay (calculateTimeUnits diff)
                      (snd (logCall (CallCalculateTimeUnits diff) p))))).
Proof.
  intros diff. subst diff.
  destruct (JS.le (JS.sub (targetDate p) (Num now)) (Num 0)) eqn:E.
  - rewrite updateCountdown_elapsed by assumption. reflexivity.
  - rewrite updateCountdown_counting by assumption. reflexivity.
Qed.

Lemma secondsShown_nonneg (r : Z) :
  0 <= r -> secondsShown (calculateTimeUnits (Num r)) = Some (r / 1000).
Proof.
  intros Hr. rewrite calculateTimeUnits_nonneg by assumption.
  unfold unitsOf, secondsShown. cbn [days hours minutes seconds]. f_equal.
  floor_arith.
Qed.

Lemma fieldValue_counting (p : Page) (r : Z) :
  0 <= r ->
  let u := calculateTimeUnits (Num r) in
  let p' := snd (addNumberChangeEffect
                   (snd (updateDisplay u
                           (snd (logCall (CallCalculateTimeUnits (Num r)) p))))) in
  fieldValue p' "days" = Some (r / 1000 / 60 / 60 / 24) /\
  fieldValue p' "hours" = Some ((r / 1000 / 60 / 60) mod 24) /\
  fieldValue p' "minutes" = Some ((r / 1000 / 60) mod 60) /\
  fieldValue p' "seconds" = Some ((r / 1000) mod 60).
Proof.
  intros Hr u p'.
  assert (0 <= r / 1000) as Hs by (apply Z.div_pos; lia).
  assert (0 <= r / 1000 / 60) as Hm by (apply Z.div_pos; lia).
  assert (0 <= r / 1000 / 60 / 60) as Hh by (apply Z.div_pos; lia).
  assert (0 <= r / 1000 / 60 / 60 / 24) as Hd by (apply Z.div_pos; lia).
  pose proof (Z.mod_pos_bound (r / 1000 / 60 / 60) 24 ltac:(lia)).
  pose proof (Z.mod_pos_bound (r / 1000 / 60) 60 ltac:(lia)).
  pose proof (Z.mod_pos_bound (r / 1000) 60 ltac:(lia)).
  subst p' u. rewrite counting_result.
  rewrite calculateTimeUnits_nonneg by assumption.
  unfold fieldValue, unitsOf. cbn [textContent days hours minutes seconds].
  repeat split; simplify_map_eq; apply formatNumber_reads_back; lia.
Qed.

(** *** The display and the remaining time *)

(** X1. While time is left, up to 2^53 ms between two valid dates (where
    the difference is exact on doubles), the four fields that a tick writes
    read as days, hours below 24, minutes below 60 and seconds below 60
    that add up to the whole seconds remaining,
    floor((target - now) / 1000). *)
Theorem display_reads_remaining_seconds (p : Page) (target now : Z) :
  targetDate p = Num target ->
  ESDate.ValidTime target -> ESDate.ValidTime now ->
  0 < target - now <= Double.two53 ->
  let p' := snd (updateCountdown now p) in
  Double.tick (Num target) now = tick p now /\
  exists D H M S : Z,
    fieldValue p' "days" = Some D /\ fieldValue p' "hours" = Some H /\
    fieldValue p' "minutes" = Some M /\ fieldValue p' "seconds" = Some S /\
    0 <= D /\ 0 <= H <= 23 /\ 0 <= M <= 59 /\ 0 <= S <= 59 /\
    D * 86400 + H * 3600 + M * 60 + S = (target - now) / 1000.
Proof.
  intros Ht _ _ [Hpos Hsafe] p'. subst p'.
  split; [apply tick_doubles; [exact Ht|lia]|].
  rewrite updateCountdown_result. cbv zeta. rewrite Ht. cbn [JS.sub JS.le].
  destruct (Z.leb_spec (target - now) 0); [lia|].
  destruct (fieldValue_counting p (target - now) ltac:(lia)) as (Hd & Hh & Hm & Hs).
  set (r := target - now) in *.
  exists (r / 1000 / 60 / 60 / 24), ((r / 1000 / 60 / 60) mod 24),
    ((r / 1000 / 60) mod 60), ((r / 1000) mod 60).
  repeat (split; [assumption|]).
  floor_arith.
Qed.

Lemma display_reads_remaining_seconds_witness :
  exists D H M S : Z,
    fieldValue (snd (updateCountdown mid2024 page2024)) "days" = Some D /\
    fieldValue (snd (updateCountdown mid2024 page2024)) "hours" = Some H /\
    fieldValue (snd (updateCountdown mid2024 page2024)) "minutes" = Some M /\
    fieldValue (snd (updateCountdown mid2024 page2024)) "seconds" = Some S /\
    0 <= D /\ 0 <= H <= 23 /\ 0 <= M <= 59 /\ 0 <= S <= 59 /\
    D * 86400 + H * 3600 + M * 60 + S = (newYear2025 - mid2024) / 1000.
Proof.
  refine (proj2 (display_reads_remaining_seconds page2024 newYear2025 mid2024
                   _ _ _ _)).
  - vm_compute. reflexivity.
  - vm_compute. split; discriminate.
  - vm_compute. split; discriminate.
  - vm_compute. split; [reflexivity|discriminate].
Defined.

(** X2. One second later the countdown shows one second less: with more
    than a second and at most 2^53 ms left between two valid dates, the
    ticks at [now] and at [now + 1000] both count, on doubles as in the
    page, and the units of the second stand for exactly one whole second
    fewer than those of the first. *)
Theorem a_second_later_one_second_less (p : Page) (target now : Z) :
  targetDate p = Num target ->
  ESDate.ValidTime target -> ESDate.ValidTime now ->
  1000 < target - now <= Double.two53 ->
  exists (u1 u2 : TimeUnits) (s : Z),
    tick p now = Counting u1 /\
    tick (snd (updateCountdown now p)) (now + 1000) = Counting u2 /\
    Double.tick (Num target) now = Counting u1 /\
    Double.tick (Num target) (now + 1000) = Counting u2 /\
    secondsShown u1 = Some s /\
    secondsShown u2 = Some (s - 1).
Proof.
  intros Ht _ _ [Hleft Hsafe].
  assert (targetDate (snd (updateCountdown now p)) = Num target) as Ht1
    by (rewrite updateCountdown_targetDate; exact Ht).
  assert (tick p now = Counting (calculateTimeUnits (Num (target - now)))) as H1.
  { rewrite (tick_valid p target now Ht).
    destruct (Z.leb_spec (target - now) 0); [lia|reflexivity]. }
  assert (tick (snd (updateCountdown now p)) (now + 1000)
          = Counting (calculateTimeUnits (Num (target - (now + 1000))))) as H2.
  { rewrite (tick_valid _ target (now + 1000) Ht1).
    destruct (Z.leb_spec (target - (now + 1000)) 0); [lia|reflexivity]. }
  exists (calculateTimeUnits (Num (target - now))),
    (calculateTimeUnits (Num (target - (now + 1000)))), ((target - now) / 1000).
  split; [exact H1|]. split; [exact H2|].
  split; [rewrite <- H1; apply tick_doubles; [exact Ht|lia]|].
  split; [rewrite <- H2; apply tick_doubles; [exact Ht1|lia]|].
  split.
  - apply secondsShown_nonneg. lia.
  - rewrite secondsShown_nonneg by lia. f_equal. floor_arith.
Qed.

Lemma a_second_later_one_second_less_witness :
  exists (u1 u2 : TimeUnits) (s : Z),
    tick page2024 mid2024 = Counting u1 /\
    tick (snd (updateCountdown mid2024 page2024)) (mid2024 + 1000) = Counting u2 /\
    Double.tick (Num newYear2025) mid2024 = Counting u1 /\
    Double.tick (Num newYear2025) (mid2024 + 1000) = Counting u2 /\
    secondsShown u1 = Some s /\
    secondsShown u2 = Some (s - 1).
Proof.
  apply (a_second_later_one_second_less page2024 newYear2025 mid2024).
  - vm_compute. reflexivity.
  - vm_compute. split; discriminate.
  - vm_compute. split; discriminate.
  - vm_compute. split; [reflexivity|discriminate].
Defined.

(** X3. A second tick at the same clock reading changes nothing a user
    sees: it takes the same exit with the same units, and it leaves the
    texts, the styles, the celebration class, the running intervals and the
    target as the first tick left them. *)
Theorem tick_again_at_same_instant (p : Page) (now : Z) :
  let p1 := snd (updateCountdown now p) in
  let p2 := snd (updateCountdown now p1) in
  tick p1 now = tick p now /\
  textContent p2 = textContent p1 /\
  style p2 = style p1 /\
  celebrationShown p2 = celebrationShown p1 /\
  timers p2 = timers p1 /\
  targetDate p2 = targetDate p1.
Proof.
  intros p1 p2.
  assert (targetDate p1 = targetDate p) as Ht
    by (subst p1; apply updateCountdown_targetDate).
  split; [rewrite !tick_unfold, Ht; reflexivity|].
  subst p2. rewrite (updateCountdown_result p1 now). cbv zeta. rewrite Ht.
  subst p1. rewrite (updateCountdown_result p now). cbv zeta.
  destruct (JS.le (JS.sub (targetDate p) (Num now)) (Num 0)).
  - rewrite !showCelebration_result.
    cbn [textContent style celebrationShown timers targetDate countdownInterval].
    repeat split.
    + apply map_eq. intros k.
      repeat (rewrite lookup_insert; case_decide); congruence.
    + destruct (countdownInterval p) as [id|]; [|reflexivity].
      apply set_eq. intros x. rewrite !elem_of_difference. tauto.
  - rewrite !counting_result.
    cbn [textContent style celebrationShown timers targetDate countdownInterval].
    repeat split.
    + apply map_eq. intros k.
      repeat (rewrite lookup_insert; case_decide); congruence.
    + apply map_eq. intros k.
      repeat (rewrite lookup_insert; case_decide); congruence.
Qed.

(** *** Fireworks *)

(** X4. Every tick that finds the countdown elapsed creates ten more
    fireworks, and a counting tick creates none: over any sequence of
    ticks, the fireworks created are ten times the number of Elapsed
    results. *)
Theorem fireworks_ten_per_elapsed_tick (nows : list Z) :
  forall p : Page,
    fireworks (snd (updateCountdowns nows p)) =
    (10 * countElapsed (fst (updateCountdowns nows p)) + fireworks p)%nat.
Proof.
  induction nows as [|now rest IH]; intros p.
  - reflexivity.
  - rewrite updateCountdowns_cons. cbn [fst snd].
    rewrite IH. rewrite tick_unfold, updateCountdown_result. cbv zeta.
    destruct (JS.le (JS.sub (targetDate p) (Num now)) (Num 0)).
    + rewrite showCelebration_result. cbn [fireworks countElapsed]. lia.
    + rewrite counting_result. cbn [fireworks countElapsed]. lia.
Qed.

(** *** Edge inputs *)

(** X5. While [targetDate] is unset or invalid, no tick ever celebrates:
    every tick, at any clock reading, takes the counting exit with four
    [NaN] units and writes the text NaN into all four fields. *)
Theorem unset_target_displays_NaN (p : Page) (now : Z) :
  targetDate p = NaN ->
  let p' := snd (updateCountdown now p) in
  tick p now = Counting (mkTimeUnits NaN NaN NaN NaN) /\
  textContent p' !! "days"%string = Some "NaN"%string /\
  textContent p' !! "hours"%string = Some "NaN"%string /\
  textContent p' !! "minutes"%string = Some "NaN"%string /\
  textContent p' !! "seconds"%string = Some "NaN"%string /\
  celebrationShown p' = celebrationShown p /\
  targetDate p' = NaN.
Proof.
  intros Ht p'. subst p'.
  rewrite tick_unfold, updateCountdown_result. cbv zeta.
  rewrite Ht. cbn [JS.sub JS.le]. rewrite counting_result.
  cbn [textContent celebrationShown targetDate].
  rewrite calculateTimeUnits_NaN. cbn [days hours minutes seconds].
  repeat split; try assumption; simplify_map_eq; reflexivity.
Qed.

Lemma unset_target_displays_NaN_witness :
  tick freshPage mid2024 = Counting (mkTimeUnits NaN NaN NaN NaN).
Proof.
  apply (unset_target_displays_NaN freshPage mid2024 eq_refl).
Defined.

(** X6. Called with a negative number of milliseconds, [calculateTimeUnits]
    yields no positive unit: days is at most -1, even for a single
    millisecond, and hours, minutes and seconds lie in -23..0, -59..0 and
    -59..0. *)
Theorem calculateTimeUnits_negative (d : Z) :
  d < 0 ->
  exists D H M S : Z,
    calculateTimeUnits (Num d) =
      {| days := Num D; hours := Num H; minutes := Num M; seconds := Num S |} /\
    D <= -1 /\ -23 <= H <= 0 /\ -59 <= M <= 0 /\ -59 <= S <= 0.
Proof.
  intros Hd. rewrite calculateTimeUnits_Num.
  exists (d / 1000 / 60 / 60 / 24), (Z.rem (d / 1000 / 60 / 60) 24),
    (Z.rem (d / 1000 / 60) 60), (Z.rem (d / 1000) 60).
  split; [reflexivity|].
  assert (d / 1000 < 0) as Hs by (apply Z.div_lt_upper_bound; lia).
  assert (d / 1000 / 60 < 0) as Hm by (apply Z.div_lt_upper_bound; lia).
  assert (d / 1000 / 60 / 60 < 0) as Hh by (apply Z.div_lt_upper_bound; lia).
  assert (d / 1000 / 60 / 60 / 24 < 0) as HD by (apply Z.div_lt_upper_bound; lia).
  pose proof (Z.rem_bound_abs (d / 1000 / 60 / 60) 24 ltac:(lia)).
  pose proof (Z.rem_bound_abs (d / 1000 / 60) 60 ltac:(lia)).
  pose proof (Z.rem_bound_abs (d / 1000) 60 ltac:(lia)).
  pose proof (Z.rem_nonpos (d / 1000 / 60 / 60) 24 ltac:(lia) ltac:(lia)).
  pose proof (Z.rem_nonpos (d / 1000 / 60) 60 ltac:(lia) ltac:(lia)).
  pose proof (Z.rem_nonpos (d / 1000) 60 ltac:(lia) ltac:(lia)).
  lia.
Qed.

Lemma calculateTimeUnits_negative_witness :
  -1 < 0 /\
  exists D H M S : Z,
    calculateTimeUnits (Num (-1)) =
      {| days := Num D; hours := Num H; minutes := Num M; seconds := Num S |} /\
    D <= -1 /\ -23 <= H <= 0 /\ -59 <= M <= 0 /\ -59 <= S <= 0.
Proof.
  split; [lia|]. apply (calculateTimeUnits_negative (-1)). lia.
Defined.

(** *** The palette *)

(** X7. Whatever [Math.random()] returns in [0, 1), [getRandomColor]
    returns a colour of the palette, never [undefined]; and every colour
    of the palette is returned for some random value. *)
Theorem getRandomColor_in_palette :
  (forall r : Random, inUnitInterval r ->
     exists c, getRandomColor r = Some c /\ In c colors) /\
  (forall c, In c colors ->
     exists r : Random, inUnitInterval r /\ getRandomColor r = Some c).
Proof.
  split.
  - intros [m e] [He [Hm0 Hm1]]. cbn [numerator exponent] in *.
    unfold getRandomColor, randomIndex. cbn [numerator exponent].
    change (Z.of_nat (length colors)) with 8.
    assert (0 < 2 ^ e) as Hpow by (apply Z.pow_pos_nonneg; lia).
    assert (0 <= m * 8 / 2 ^ e) as Hlow by (apply Z.div_pos; lia).
    assert (m * 8 / 2 ^ e < 8) as Hhigh by (apply Z.div_lt_upper_bound; lia).
    destruct (Z.ltb_spec (m * 8 / 2 ^ e) 0); [lia|].
    assert (Z.to_nat (m * 8 / 2 ^ e) < length colors)%nat as Hidx
      by (change (length colors) with 8%nat; lia).
    destruct (lookup_lt_is_Some_2 colors _ Hidx) as [c Hc].
    exists c. split; [exact Hc|].
    apply list_elem_of_In. apply (list_elem_of_lookup_2 _ _ _ Hc).
  - intros c Hc. apply list_elem_of_In in Hc.
    apply list_elem_of_lookup_1 in Hc as [i Hi].
    assert (i < 8)%nat as Hlt by (apply (lookup_lt_Some colors i c Hi)).
    exists (mkRandom (Z.of_nat i) 3). split.
    + unfold inUnitInterval. cbn [numerator exponent].
      change (2 ^ 3) with 8. lia.
    + unfold getRandomColor, randomIndex. cbn [numerator exponent].
      change (Z.of_nat (length colors)) with 8. change (2 ^ 3) with 8.
      rewrite Z.div_mul by lia.
      destruct (Z.ltb_spec (Z.of_nat i) 0); [lia|].
      rewrite Nat2Z.id. exact Hi.
Qed.

(** *** Intervals *)

Lemma startCountdown_result (p : Page) (now : Z) :
  startCountdown now p =
  (tick p now, snd (setCountdownInterval (snd (updateCountdown now p)))).
Proof.
  unfold startCountdown, bind, ret, tick.
  destruct (updateCountdown now p) as [r p1]. reflexivity.
Qed.

Lemma setCountdownInterval_result (p : Page) :
  snd (setCountdownInterval p) =
  mkPage (targetDate p) (Some (fresh (timers p))) ({[ fresh (timers p) ]} ∪ timers p)
    (textContent p) (style p) (celebrationShown p) (fireworks p) (calls p).
Proof. reflexivity. Qed.

(** A tick clears at most the interval that [countdownInterval] names. *)
Lemma updateCountdown_timers (p : Page) (now : Z) :
  let p' := snd (updateCountdown now p) in
  countdownInterval p' = countdownInterval p /\
  (forall id, id ∈ timers p' -> id ∈ timers p) /\
  (forall id, id ∈ timers p -> countdownInterval p <> Some id -> id ∈ timers p') /\
  (tick p now = Elapsed ->
   forall id, countdownInterval p = Some id -> id ∉ timers p').
Proof.
  intros p'. subst p'. rewrite tick_unfold, updateCountdown_result. cbv zeta.
  destruct (JS.le (JS.sub (targetDate p) (Num now)) (Num 0)).
  - rewrite showCelebration_result. cbn [countdownInterval timers].
    split; [reflexivity|].
    destruct (countdownInterval p) as [old|].
    + split; [|split].
      * intros id. rewrite elem_of_difference. tauto.
      * intros id Hin Hne. rewrite elem_of_difference, elem_of_singleton.
        split; [exact Hin|congruence].
      * intros _ id [= ->]. rewrite elem_of_difference, elem_of_singleton. tauto.
    + split; [|split]; [tauto|tauto|discriminate].
  - rewrite counting_result. cbn [countdownInterval timers].
    split; [reflexivity|]. split; [|split]; [tauto|tauto|discriminate].
Qed.

(** X8. [startCountdown] always leaves a new interval running, also when
    its own first tick already found the countdown elapsed and showed the
    celebration; that interval is cleared by the next tick that finds the
    countdown elapsed. *)
Theorem startCountdown_leaves_interval_running (p : Page) (now : Z) :
  let p1 := snd (updateCountdown now p) in
  let p' := snd (startCountdown now p) in
  exists id : nat,
    countdownInterval p' = Some id /\
    (id ∉ timers p1) /\
    timers p' = {[ id ]} ∪ timers p1 /\
    celebrationShown p' = celebrationShown p1 /\
    (forall later, tick p' later = Elapsed ->
       id ∉ timers (snd (onInterval id later p'))).
Proof.
  intros p1 p'. subst p'. rewrite startCountdown_result. cbn [snd]. fold p1.
  rewrite setCountdownInterval_result.
  exists (fresh (timers p1)).
  split; [reflexivity|]. split; [apply is_fresh|].
  split; [reflexivity|]. split; [reflexivity|].
  intros later He. unfold onInterval.
  set (q := mkPage _ _ _ _ _ _ _ _) in *.
  destruct (decide (fresh (timers p1) ∈ timers q)) as [Hin|Hout]; [|exact Hout].
  cbn [snd]. apply (updateCountdown_timers q later); [exact He|reflexivity].
Qed.

(** *** Sequences of events *)

Lemma toLowerCase_is_r (key : string) :
  toLowerCase key = "r"%string <-> key = "r"%string \/ key = "R"%string.
Proof.
  split.
  - destruct key as [|c [|c' rest]]; cbn [toLowerCase]; try discriminate.
    intros [= Hc].
    destruct c as [[] [] [] [] [] [] [] []]; vm_compute in Hc;
      try discriminate Hc; auto.
  - intros [->| ->]; reflexivity.
Qed.

Section EventFacts.
Context {tz : HostTimeZone}.

(** Apart from a reload, every listener is built from five steps; what
    these steps preserve, every event preserves. *)
Lemma handle_preserves (Inv : Page -> Prop) :
  (forall p now, Inv p -> Inv (snd (updateCountdown now p))) ->
  (forall p, Inv p -> Inv (snd (showCelebration p))) ->
  (forall p w, Inv p -> Inv (snd (onResize w p))) ->
  (forall p now, Inv p -> Inv (snd (initializeCountdown now p))) ->
  (forall p, Inv p -> Inv (snd (setCountdownInterval p))) ->
  forall (e : Event) (p : Page),
    reloads e = false -> Inv p -> Inv (snd (handle e p)).
Proof.
  intros Htick Hshow Hresize Hinit Hset e p Hreload Hp.
  assert (forall now1 now2 q, Inv q ->
            Inv (snd (bind (initializeCountdown now1)
                        (fun _ => bind (startCountdown now2) (fun _ => ret tt)) q)))
    as Hstart.
  { intros now1 now2 q Hq. unfold bind, ret.
    destruct (initializeCountdown now1 q) as [[] q1] eqn:E1.
    rewrite startCountdown_result. cbn [snd].
    apply Hset, Htick. change q1 with (snd (tt, q1)). rewrite <- E1.
    apply Hinit, Hq. }
  destruct e as [now1 now2|id now|w|hidden now|key ctrl|now1 now2];
    cbn [handle].
  - apply Hstart, Hp.
  - unfold onInterval. destruct (decide (id ∈ timers p)); cbn [snd];
      [apply Htick|]; exact Hp.
  - apply Hresize, Hp.
  - unfold onVisibilityChange. destruct hidden; [exact Hp|].
    unfold bind, ret. destruct (updateCountdown now p) as [r q] eqn:E.
    cbn [snd]. change q with (snd (r, q)). rewrite <- E. apply Htick, Hp.
  - cbn [reloads] in Hreload. unfold onKeyDown, bind. rewrite Hreload.
    unfold ret. destruct (String.eqb key " " && ctrl); [apply Hshow|]; exact Hp.
  - apply Hstart, Hp.
Qed.

Lemma run_preserves (Inv : Page -> Prop) :
  (forall e p, reloads e = false -> Inv p -> Inv (snd (handle e p))) ->
  forall (events : list Event) (p : Page),
    Forall (fun e => reloads e = false) events -> Inv p -> Inv (run events p).
Proof.
  intros Hstep events. induction events as [|e rest IH]; intros p Hall Hp.
  - exact Hp.
  - cbn [run]. inversion Hall as [|? ? He Hrest]; subst.
    apply IH; [exact Hrest|]. apply Hstep; assumption.
Qed.

(** Without a restart, three of the steps are enough. *)
Lemma handle_preserves_without_restart (Inv : Page -> Prop) :
  (forall p now, Inv p -> Inv (snd (updateCountdown now p))) ->
  (forall p, Inv p -> Inv (snd (showCelebration p))) ->
  (forall p w, Inv p -> Inv (snd (onResize w p))) ->
  forall (e : Event) (p : Page),
    reloads e = false -> restarts e = false -> Inv p -> Inv (snd (handle e p)).
Proof.
  intros Htick Hshow Hresize e p Hreload Hrestart Hp.
  destruct e as [now1 now2|id now|w|hidden now|key ctrl|now1 now2];
    cbn [handle]; try discriminate Hrestart.
  - unfold onInterval. destruct (decide (id ∈ timers p)); cbn [snd];
      [apply Htick|]; exact Hp.
  - apply Hresize, Hp.
  - unfold onVisibilityChange. destruct hidden; [exact Hp|].
    unfold bind, ret. destruct (updateCountdown now p) as [r q] eqn:E.
    cbn [snd]. change q with (snd (r, q)). rewrite <- E. apply Htick, Hp.
  - cbn [reloads] in Hreload. unfold onKeyDown, bind. rewrite Hreload.
    unfold ret. destruct (String.eqb key " " && ctrl); [apply Hshow|]; exact Hp.
Qed.

Lemma onResize_result (p : Page) (w : Z) :
  snd (onResize w p) =
  mkPage (targetDate p) (countdownInterval p) (timers p) (textContent p)
    (<[(".countdown-container", "flexDirection")%string :=
         if w <=? 480 then "column"%string else "row"%string]> (style p))
    (celebrationShown p) (fireworks p) (calls p).
Proof. unfold onResize. destruct (w <=? 480); reflexivity. Qed.

Lemma initializeCountdown_frame (p : Page) (now : Z) :
  let p' := snd (initializeCountdown now p) in
  countdownInterval p' = countdownInterval p /\ timers p' = timers p /\
  style p' = style p /\ celebrationShown p' = celebrationShown p /\
  fireworks p' = fireworks p.
Proof. repeat split. Qed.
End EventFacts.

Lemma celebrationView_showCelebration (p : Page) :
  celebrationView (snd (showCelebration p)).
Proof.
  rewrite showCelebration_result. unfold celebrationView.
  cbn [celebrationShown style]. repeat split; simplify_map_eq; reflexivity.
Qed.

Lemma celebrationView_updateCountdown (p : Page) (now : Z) :
  celebrationView p -> celebrationView (snd (updateCountdown now p)).
Proof.
  intros (Hshown & Hcontainer & Hline).
  rewrite updateCountdown_result. cbv zeta.
  destruct (JS.le (JS.sub (targetDate p) (Num now)) (Num 0));
    [apply celebrationView_showCelebration|].
  rewrite counting_result. unfold celebrationView.
  cbn [celebrationShown style].
  rewrite !lookup_insert_ne by discriminate. repeat split; assumption.
Qed.

Lemma bind_result {A B : Type} (c : Cmd A) (k : A -> Cmd B) (p : Page) :
  bind c k p = k (fst (c p)) (snd (c p)).
Proof. unfold bind. destruct (c p). reflexivity. Qed.

Section EventTheorems.
Context {tz : HostTimeZone}.

(** X9. Once the celebration view is on, the countdown never comes back
    into view short of a reload: whatever events follow (ticks, resizes,
    visibility changes, key presses other than R, even a restart after an
    error, which sets a new target and counts again), the celebration
    stays shown and the countdown and the target line stay hidden. *)
Theorem celebration_view_is_permanent (events : list Event) (p : Page) :
  Forall (fun e => reloads e = false) events ->
  celebrationView p ->
  celebrationView (run events p).
Proof.
  apply run_preserves. apply handle_preserves.
  - intros q now. apply celebrationView_updateCountdown.
  - intros q _. apply celebrationView_showCelebration.
  - intros q w (Hshown & Hcontainer & Hline). rewrite onResize_result.
    unfold celebrationView. cbn [celebrationShown style].
    rewrite !lookup_insert_ne by discriminate. repeat split; assumption.
  - intros q now Hq. exact Hq.
  - intros q Hq. exact Hq.
Qed.

(** X10. A restart does not stop the interval that is already running.
    If the countdown is restarted (as the error listener does) while an
    interval runs and time is left, that interval is not cleared then, and
    nothing the script does afterwards clears it: the script only ever
    clears the interval it started last. *)
Theorem restart_leaves_old_interval_running
    (events : list Event) (p : Page) (id : nat) (now1 now2 : Z) :
  countdownInterval p = Some id ->
  id ∈ timers p ->
  tick (snd (initializeCountdown now1 p)) now2 <> Elapsed ->
  Forall (fun e => reloads e = false) events ->
  let p' := run events (snd (handle (ErrorTimeout now1 now2) p)) in
  (id ∈ timers p') /\ countdownInterval p' <> Some id.
Proof.
  intros Hid Hin Hcounting Hall.
  set (Inv := fun q : Page => (id ∈ timers q) /\ countdownInterval q <> Some id).
  assert (forall q, Inv q -> Inv (snd (showCelebration q))) as Hshow.
  { intros q [Hq1 Hq2]. rewrite showCelebration_result. unfold Inv.
    cbn [timers countdownInterval]. split; [|exact Hq2].
    destruct (countdownInterval q) as [old|]; [|exact Hq1].
    rewrite elem_of_difference, elem_of_singleton. split; [exact Hq1|congruence]. }
  assert (forall q now, Inv q -> Inv (snd (updateCountdown now q))) as Htick.
  { intros q now Hq. rewrite updateCountdown_result. cbv zeta.
    destruct (JS.le (JS.sub (targetDate q) (Num now)) (Num 0));
      [apply Hshow, Hq|]. rewrite counting_result. exact Hq. }
  assert (forall q, id ∈ timers q -> Inv (snd (setCountdownInterval q))) as Hset.
  { intros q Hq. rewrite setCountdownInterval_result. unfold Inv.
    cbn [timers countdownInterval]. split.
    - apply elem_of_union_r. exact Hq.
    - intros [= Heq]. apply (is_fresh (timers q)). rewrite Heq. exact Hq. }
  cbv zeta. apply (run_preserves Inv); [|exact Hall|].
  - apply handle_preserves.
    + exact Htick.
    + exact Hshow.
    + intros q w Hq. rewrite onResize_result. exact Hq.
    + intros q now Hq. exact Hq.
    + intros q [Hq _]. apply Hset, Hq.
  - cbn [handle]. unfold onErrorTimeout. rewrite !bind_result.
    rewrite startCountdown_result. cbn [fst snd ret]. apply Hset.
    rewrite tick_unfold in Hcounting.
    rewrite updateCountdown_result. cbv zeta.
    destruct (JS.le (JS.sub (targetDate (snd (initializeCountdown now1 p)))
                       (Num now2)) (Num 0)); [congruence|].
    rewrite counting_result. exact Hin.
Qed.

(** X11. Without a restart there is never more than one interval: from a
    page without intervals, after the load and any further events other
    than reloads and restarts, the only interval that can still run is the
    one [countdownInterval] names, and a tick that finds the countdown
    elapsed leaves no interval running at all. *)
Theorem one_interval_without_restart
    (events : list Event) (p : Page) (now1 now2 : Z) :
  timers p = ∅ ->
  Forall (fun e => reloads e = false) events ->
  Forall (fun e => restarts e = false) events ->
  let p' := run events (snd (handle (DOMContentLoaded now1 now2) p)) in
  exists id : nat,
    countdownInterval p' = Some id /\
    (forall x, x ∈ timers p' -> x = id) /\
    (forall now, tick p' now = Elapsed ->
       timers (snd (updateCountdown now p')) = ∅).
Proof.
  intros Hempty Hreload Hrestart. cbv zeta.
  set (p0 := snd (handle (DOMContentLoaded now1 now2) p)).
  set (Inv := fun (id : nat) (q : Page) =>
                countdownInterval q = Some id /\ forall x, x ∈ timers q -> x = id).
  assert (exists id, Inv id p0) as [id H0].
  { subst p0. cbn [handle]. unfold onDOMContentLoaded. rewrite !bind_result.
    rewrite startCountdown_result. cbn [fst snd ret].
    set (q1 := snd (initializeCountdown now1 p)).
    assert (timers q1 = ∅) as Hq1 by exact Hempty.
    rewrite setCountdownInterval_result.
    exists (fresh (timers (snd (updateCountdown now2 q1)))).
    split; [reflexivity|]. cbn [timers]. intros x Hx.
    apply elem_of_union in Hx as [Hx|Hx]; [apply elem_of_singleton in Hx; exact Hx|].
    destruct (updateCountdown_timers q1 now2) as (_ & Hsub & _).
    apply Hsub in Hx. rewrite Hq1 in Hx.
    apply not_elem_of_empty in Hx. destruct Hx. }
  assert (forall q, Inv id q -> Inv id (snd (showCelebration q))) as Hshow.
  { intros q [Hq1 Hq2]. rewrite showCelebration_result. unfold Inv.
    cbn [timers countdownInterval]. split; [exact Hq1|].
    rewrite Hq1. intros x Hx. apply elem_of_difference in Hx as [Hx _].
    apply Hq2, Hx. }
  assert (forall q now, Inv id q -> Inv id (snd (updateCountdown now q))) as Htick.
  { intros q now Hq. rewrite updateCountdown_result. cbv zeta.
    destruct (JS.le (JS.sub (targetDate q) (Num now)) (Num 0));
      [apply Hshow, Hq|]. rewrite counting_result. exact Hq. }
  assert (Inv id (run events p0)) as [HN1 HN2].
  { clear Hempty. revert H0. generalize p0.
    induction events as [|e rest IH]; intros q Hq; [exact Hq|].
    cbn [run]. inversion Hreload; inversion Hrestart; subst.
    apply IH; try assumption.
    apply (handle_preserves_without_restart (Inv id)); try assumption.
    intros q' w Hq'. rewrite onResize_result. exact Hq'. }
  exists id. split; [exact HN1|]. split; [exact HN2|].
  intros now He.
  destruct (updateCountdown_timers (run events p0) now) as (_ & Hsub & _ & Hgone).
  apply set_eq. intros x. split.
  - intros Hx. assert (x = id) as -> by (apply HN2, Hsub, Hx).
    exfalso. exact (Hgone He id HN1 Hx).
  - intros Hx. apply not_elem_of_empty in Hx. destruct Hx.
Qed.
End EventTheorems.

Lemma celebration_view_is_permanent_witness :
  celebrationView (@run zoneUTC laterEvents celebratedPage).
Proof.
  apply (@celebration_view_is_permanent zoneUTC laterEvents celebratedPage).
  - unfold laterEvents. repeat constructor.
  - unfold celebratedPage. vm_compute. repeat split.
Defined.

Lemma restart_leaves_old_interval_running_witness :
  let p' := @run zoneUTC [IntervalFires 1 newYear2025]
              (snd (@handle zoneUTC (ErrorTimeout mid2024 (mid2024 + 1)) loadedPage)) in
  (0%nat ∈ timers p') /\ countdownInterval p' <> Some 0%nat.
Proof.
  apply (@restart_leaves_old_interval_running zoneUTC
           [IntervalFires 1 newYear2025] loadedPage 0%nat mid2024 (mid2024 + 1)).
  - vm_compute. reflexivity.
  - vm_compute. reflexivity.
  - vm_compute. discriminate.
  - repeat constructor.
Defined.

Lemma one_interval_without_restart_witness :
  let p' := @run zoneUTC [IntervalFires 0 (mid2024 + 1000); Resized 400]
              (snd (@handle zoneUTC (DOMContentLoaded mid2024 (mid2024 + 3)) freshPage)) in
  exists id : nat,
    countdownInterval p' = Some id /\
    (forall x, x ∈ timers p' -> x = id) /\
    (forall now, tick p' now = Elapsed ->
       timers (snd (updateCountdown now p')) = ∅).
Proof.
  apply (@one_interval_without_restart zoneUTC
           [IntervalFires 0 (mid2024 + 1000); Resized 400] freshPage);
    [reflexivity|repeat constructor|repeat constructor].
Defined.

(** *** Ticking second by second *)

(** Ticks one second apart, on the integers of the page model. *)
Lemma ticking_counts_down_exactly (n : nat) (target : Z) :
  forall (p : Page) (now : Z),
    targetDate p = Num target ->
    now + 1000 * (Z.of_nat n - 1) < target ->
    map resultSeconds (fst (updateCountdowns (everySecond n now) p)) =
    map Some (descending n ((target - now) / 1000)).
Proof.
  induction n as [|n IH]; intros p now Ht Hlast; [reflexivity|].
  cbn [everySecond descending]. rewrite updateCountdowns_cons. cbn [fst map].
  f_equal.
  - rewrite (tick_valid p target now Ht).
    destruct (Z.leb_spec (target - now) 0); [lia|].
    cbn [resultSeconds]. apply secondsShown_nonneg. lia.
  - rewrite IH.
    + f_equal. f_equal. floor_arith.
    + rewrite updateCountdown_targetDate. exact Ht.
    + lia.
Qed.

(** The same ticks on doubles, while the differences are exact. *)
Lemma ticking_on_doubles (n : nat) (target : Z) :
  forall (p : Page) (now : Z),
    targetDate p = Num target ->
    now + 1000 * (Z.of_nat n - 1) < target ->
    target - now <= Double.two53 ->
    map (Double.tick (Num target)) (everySecond n now) =
    fst (updateCountdowns (everySecond n now) p).
Proof.
  induction n as [|n IH]; intros p now Ht Hlast Hsafe; [reflexivity|].
  cbn [everySecond map]. rewrite updateCountdowns_cons. cbn [fst].
  f_equal.
  - apply tick_doubles; [exact Ht|lia].
  - apply IH; [rewrite updateCountdown_targetDate; exact Ht|lia|lia].
Qed.

(** X12. Ticks one second apart count down one second at a time: as long
    as the last of [n] ticks comes before the target and at most 2^53 ms
    separate the two valid dates (where the differences are exact on
    doubles), each tick counts, on doubles as in the page, and the whole
    seconds they stand for go down by one from
    floor((target - now) / 1000). *)
Theorem ticking_counts_down_by_seconds
    (n : nat) (target : Z) (p : Page) (now : Z) :
  targetDate p = Num target ->
  ESDate.ValidTime target -> ESDate.ValidTime now ->
  now + 1000 * (Z.of_nat n - 1) < target ->
  target - now <= Double.two53 ->
  map (Double.tick (Num target)) (everySecond n now) =
    fst (updateCountdowns (everySecond n now) p) /\
  map resultSeconds (fst (updateCountdowns (everySecond n now) p)) =
    map Some (descending n ((target - now) / 1000)).
Proof.
  intros Ht _ _ Hlast Hsafe. split.
  - apply ticking_on_doubles; assumption.
  - apply ticking_counts_down_exactly; assumption.
Qed.

Lemma ticking_counts_down_by_seconds_witness :
  map resultSeconds
    (fst (updateCountdowns (everySecond 3 (newYear2025 - 2500)) page2024)) =
  map Some (descending 3 ((newYear2025 - (newYear2025 - 2500)) / 1000)).
Proof.
  refine (proj2 (ticking_counts_down_by_seconds 3 newYear2025 page2024
                   (newYear2025 - 2500) _ _ _ _ _)).
  - vm_compute. reflexivity.
  - vm_compute. split; discriminate.
  - vm_compute. split; discriminate.
  - vm_compute. reflexivity.
  - vm_compute. discriminate.
Defined.

(** *** The year labels *)

Lemma updateCountdown_other_text (p : Page) (now : Z) (id : string) :
  id <> "days"%string -> id <> "hours"%string ->
  id <> "minutes"%string -> id <> "seconds"%string ->
  textContent (snd (updateCountdown now p)) !! id = textContent p !! id.
Proof.
  intros Hd Hh Hm Hs. rewrite updateCountdown_result. cbv zeta.
  destruct (JS.le (JS.sub (targetDate p) (Num now)) (Num 0)).
  - rewrite showCelebration_result. reflexivity.
  - rewrite counting_result. cbn [textContent].
    rewrite !lookup_insert_ne by congruence. reflexivity.
Qed.

Lemma updateCountdowns_other_text (nows : list Z) (id : string) :
  id <> "days"%string -> id <> "hours"%string ->
  id <> "minutes"%string -> id <> "seconds"%string ->
  forall p : Page,
    textContent (snd (updateCountdowns nows p)) !! id = textContent p !! id.
Proof.
  intros Hd Hh Hm Hs. induction nows as [|now rest IH]; intros p; [reflexivity|].
  rewrite updateCountdowns_cons. cbn [snd]. rewrite IH.
  apply updateCountdown_other_text; assumption.
Qed.

Section InitialisationFacts.
Context {tz : HostTimeZone}.

(** X13. The two year labels always carry the same text, the numeral of
    the local year of the clock reading plus one, and no later tick
    touches them. *)
Theorem year_labels_mirror_next_year (now : Z) (nows : list Z) (p : Page) :
  0 <= ESDate.getFullYear now + 1 ->
  let p' := snd (updateCountdowns nows (snd (initializeCountdown now p))) in
  fieldValue p' "target-year" = Some (ESDate.getFullYear now + 1) /\
  fieldValue p' "current-year" = Some (ESDate.getFullYear now + 1) /\
  textContent p' !! "target-year"%string = textContent p' !! "current-year"%string.
Proof.
  intros Hyear p'. subst p'. unfold fieldValue.
  rewrite !updateCountdowns_other_text by discriminate.
  destruct (initializeCountdown_page now p) as (_ & -> & ->).
  assert (JS.parseDigits (JS.toString (Num (ESDate.getFullYear now + 1))) 0
          = Some (ESDate.getFullYear now + 1)) as Hread.
  { unfold JS.toString.
    destruct (Z.ltb_spec (ESDate.getFullYear now + 1) 0); [lia|].
    apply natToString_reads_back. assumption. }
  repeat split; assumption.
Qed.

(** The target that [initializeCountdown] sets is valid and ahead of the
    clock reading, and at most a leap year and the two zone offsets away. *)
Lemma initializeCountdown_target_ahead (now : Z) (p : Page) :
  ZoneKeepsNewYear tz ->
  ESDate.ValidTime now ->
  ~ -1 <= ESDate.getFullYear now <= 98 ->
  ESDate.getFullYear now < 275760 ->
  let target := ESDate.UTC (ESDate.TimeFromYear (ESDate.getFullYear now + 1)) in
  targetDate (snd (initializeCountdown now p)) = Num target /\
  now < target < now + 368 * ESDate.msPerDay.
Proof.
  intros [Hshort Hahead] [Hlow Hhigh] Hyear Hlast target.
  set (y := ESDate.getFullYear now) in *.
  set (l := ESDate.TimeFromYear (y + 1)) in *.
  pose proof (YearFromTime_spec (ESDate.LocalTime now)) as [Hfrom Hto].
  change (ESDate.YearFromTime (ESDate.LocalTime now)) with y in Hfrom, Hto.
  fold l in Hto.
  assert (now < target) as Hafter by (apply Hahead; exact Hto).
  assert (target < now + 368 * ESDate.msPerDay) as Hnear.
  { pose proof (DayFromYear_step y) as Hstep.
    assert (ESDate.DaysInYear y <= 366) as Hlen.
    { unfold ESDate.DaysInYear.
      destruct (negb (y mod 4 =? 0)), (negb (y mod 100 =? 0)),
        (negb (y mod 400 =? 0)); lia. }
    pose proof (Hshort l false) as Hl. pose proof (Hshort now true) as Hn.
    subst target. unfold ESDate.UTC, ESDate.LocalTime in *. subst l.
    unfold ESDate.TimeFromYear, ESDate.msPerDay in *. lia. }
  split; [|split; assumption].
  rewrite (proj1 (initializeCountdown_page now p)). fold y.
  apply construct_new_year; [lia|]. fold l. fold target.
  pose proof (DayFromYear_le (y + 1) 275760 ltac:(lia)) as Hday.
  change (ESDate.DayFromYear 275760) with 99999744 in Hday.
  pose proof (Hshort l false) as Hl.
  subst target. unfold ESDate.UTC in *. subst l.
  unfold ESDate.TimeFromYear, ESDate.msPerDay, ESDate.maxTime in *. lia.
Qed.

(** X14. The countdown never starts elapsed: for a valid clock reading
    outside the two-digit years and the last year, on a host whose zone
    keeps New Year in order, every tick from the initialisation until the
    target counts, and it shows at most 367 days. *)
Theorem countdown_starts_counting (now1 now2 : Z) (p : Page) :
  ZoneKeepsNewYear tz ->
  ESDate.ValidTime now1 ->
  ~ -1 <= ESDate.getFullYear now1 <= 98 ->
  ESDate.getFullYear now1 < 275760 ->
  let target := ESDate.UTC (ESDate.TimeFromYear (ESDate.getFullYear now1 + 1)) in
  now1 < target /\
  (now1 <= now2 < target ->
   exists (u : TimeUnits) (D : Z),
     tick (snd (initializeCountdown now1 p)) now2 = Counting u /\
     days u = Num D /\ 0 <= D <= 367).
Proof.
  intros Hzone Hvalid Hyear Hlast target.
  destruct (initializeCountdown_target_ahead now1 p Hzone Hvalid Hyear Hlast)
    as (Ht & Hafter & Hnear).
  fold target in Ht, Hafter, Hnear.
  split; [exact Hafter|]. intros [Hfrom Hto].
  exists (calculateTimeUnits (Num (target - now2))),
    ((target - now2) / 1000 / 60 / 60 / 24).
  split; [|split].
  - rewrite (tick_valid _ target now2 Ht).
    destruct (Z.leb_spec (target - now2) 0); [lia|reflexivity].
  - reflexivity.
  - unfold ESDate.msPerDay in Hnear. floor_arith.
Qed.
End InitialisationFacts.

Lemma countdown_starts_counting_witness :
  exists (u : TimeUnits) (D : Z),
    tick (snd (@initializeCountdown zoneIST mid2024 freshPage)) (mid2024 + 3)
      = Counting u /\
    days u = Num D /\ 0 <= D <= 367.
Proof.
  refine (proj2 (@countdown_starts_counting zoneIST mid2024 (mid2024 + 3) freshPage
                   (fixedZone_keeps_new_year 19800000 eq_refl) _ _ _) _).
  - vm_compute. split; discriminate.
  - vm_compute. intros [_ H]. apply H. reflexivity.
  - vm_compute. reflexivity.
  - vm_compute. split; [discriminate|reflexivity].
Defined.

Lemma year_labels_mirror_next_year_witness :
  fieldValue (snd (updateCountdowns [mid2024; newYear2025]
                     (snd (@initializeCountdown zoneUTC mid2024 freshPage))))
    "target-year" = Some 2025.
Proof.
  refine (proj1 (@year_labels_mirror_next_year zoneUTC mid2024
                   [mid2024; newYear2025] freshPage _)).
  vm_compute. discriminate.
Defined.

(** *** Keys and formatting *)

(** X15. A key press changes the page in two cases only: R or r (with or
    without Ctrl) reloads it, and Ctrl+Space shows the celebration, which
    also stops the interval whatever time is left; every other key leaves
    the page as it is. *)
Theorem keydown_effects (key : string) (ctrlKey : bool) (p : Page) :
  (key = "r"%string \/ key = "R"%string ->
   snd (onKeyDown key ctrlKey p) = freshPage) /\
  (key = " "%string -> ctrlKey = true ->
   snd (onKeyDown key ctrlKey p) = snd (showCelebration p) /\
   celebrationView (snd (onKeyDown key ctrlKey p)) /\
   forall id, countdownInterval p = Some id ->
              id ∉ timers (snd (onKeyDown key ctrlKey p))) /\
  (key <> "r"%string -> key <> "R"%string ->
   key <> " "%string \/ ctrlKey = false ->
   snd (onKeyDown key ctrlKey p) = p).
Proof.
  unfold onKeyDown. rewrite bind_result.
  split; [|split].
  - intros Hr.
    assert (String.eqb (toLowerCase key) "r" = true) as E
      by (apply String.eqb_eq, toLowerCase_is_r, Hr).
    rewrite E. destruct Hr as [-> | ->]; reflexivity.
  - intros -> ->.
    change (snd ((if String.eqb " " " " && true then showCelebration else ret tt)
                   (snd ((if String.eqb (toLowerCase " ") "r" then reload
                          else ret tt) p))))
      with (snd (showCelebration p)).
    split; [reflexivity|]. split; [apply celebrationView_showCelebration|].
    intros id Hid. rewrite showCelebration_result. cbn [timers]. rewrite Hid.
    rewrite elem_of_difference, elem_of_singleton. tauto.
  - intros Hr HR Hspace.
    destruct (String.eqb (toLowerCase key) "r") eqn:E.
    + apply String.eqb_eq, toLowerCase_is_r in E. tauto.
    + destruct (String.eqb_spec key " ") as [->|Hne].
      * destruct Hspace as [Hspace| ->]; [congruence|reflexivity].
      * reflexivity.
Qed.

Lemma keydown_effects_witness :
  snd (onKeyDown "Enter" false page2024) = page2024.
Proof.
  apply (proj2 (proj2 (keydown_effects "Enter" false page2024)));
    [discriminate|discriminate|left; discriminate].
Defined.

(** X16. The formatted fields are unambiguous: two non-negative numbers
    with the same formatted text are the same number, the text always has
    at least two characters, and exactly two below 100. *)
Theorem formatNumber_distinguishes (a b : Z) :
  0 <= a -> 0 <= b ->
  (formatNumber (Num a) = formatNumber (Num b) -> a = b) /\
  (2 <= String.length (formatNumber (Num a)))%nat /\
  (a < 100 -> String.length (formatNumber (Num a)) = 2%nat).
Proof.
  intros Ha Hb. split; [|split].
  - intros Heq. pose proof (formatNumber_reads_back a Ha) as Hra.
    rewrite Heq, (formatNumber_reads_back b Hb) in Hra. congruence.
  - destruct (Z_lt_le_dec a 10) as [Hsmall|Hbig].
    + destruct (formatNumber_below_ten a ltac:(lia)) as [_ ->]. cbn. lia.
    + rewrite formatNumber_from_ten by assumption. unfold JS.toString.
      destruct (Z.ltb_spec a 0); [lia|]. apply natToString_long. assumption.
  - intros Hlt. apply (formatNumber_two_digits a). lia.
Qed.

Lemma formatNumber_distinguishes_witness :
  (2 <= String.length (formatNumber (Num 7)))%nat.
Proof.
  apply (proj1 (proj2 (formatNumber_distinguishes 7 7 ltac:(lia) ltac:(lia)))).
Defined.

Lemma getRandomColor_in_palette_witness :
  exists c, getRandomColor (mkRandom 5 3) = Some c /\ In c colors.
Proof.
  apply (proj1 getRandomColor_in_palette (mkRandom 5 3)).
  unfold inUnitInterval. cbn [numerator exponent]. change (2 ^ 3) with 8. lia.
Defined.

Lemma startCountdown_leaves_interval_running_witness :
  exists id : nat,
    countdownInterval (snd (startCountdown newYear2025 page2024)) = Some id /\
    (id ∉ timers (snd (updateCountdown newYear2025 page2024))) /\
    timers (snd (startCountdown newYear2025 page2024))
      = {[ id ]} ∪ timers (snd (updateCountdown newYear2025 page2024)) /\
    celebrationShown (snd (startCountdown newYear2025 page2024))
      = celebrationShown (snd (updateCountdown newYear2025 page2024)) /\
    (forall later,
       tick (snd (startCountdown newYear2025 page2024)) later = Elapsed ->
       id ∉ timers (snd (onInterval id later
                            (snd (startCountdown newYear2025 page2024))))).
Proof.
  exact (startCountdown_leaves_interval_running page2024 newYear2025).
Defined.
